(** * davil: controllers and axis generator

    A shallow embedding of
    - [mymodule/frontend/view/controllers/cluster_controller.py],
    - [mymodule/frontend/view/controllers/mapper_controller.py],
    - [mymodule/model/axisgenerator.py],
    and the properties their specification states about them.

    Methods are functions in a state-and-exception monad.  Python objects
    that are mutated in place and may be shared (pandas tables, the plot
    data source) live in a store and are named by references; plain values
    (labels, colours, numbers) are passed as they are. *)

From stdpp Require Import gmap strings list.
From Stdlib Require Floats.SpecFloat.

(** ** Python: calls that return or raise *)

Module Python.

(** The exceptions the modelled code lets escape. *)
Inductive exn := ValueError | KeyError | IndexError.

(** How a call ends.  A raise does not undo the writes made before it, so
    both endings carry the state reached.  [Stuck] is a read through a
    reference that names no object, which Python cannot produce. *)
Inductive outcome (St A : Type) :=
| Returns (a : A) (s : St)
| Raises (e : exn) (s : St)
| Stuck.
Arguments Returns {St A} a s.
Arguments Raises {St A} e s.
Arguments Stuck {St A}.

Definition M (St A : Type) : Type := St → outcome St A.

Definition ret {St A} (a : A) : M St A := λ s, Returns a s.

Definition bind {St A B} (m : M St A) (k : A → M St B) : M St B :=
  λ s, match m s with
       | Returns a s' => k a s'
       | Raises e s' => Raises e s'
       | Stuck => Stuck
       end.

Definition raise {St A} (e : exn) : M St A := λ s, Raises e s.
Definition stuck {St A} : M St A := λ _, Stuck.
Definition gets {St A} (f : St → A) : M St A := λ s, Returns (f s) s.
Definition modify {St} (f : St → St) : M St unit := λ s, Returns tt (f s).

(** The state a call leaves behind, however it ended. *)
Definition after {St A} (o : outcome St A) (s : St) : St :=
  match o with
  | Returns _ s' => s'
  | Raises _ s' => s'
  | Stuck => s
  end.

(** [l[i]] on a Python list: indices [-len l .. len l - 1] are accepted,
    the negative ones counting from the end. *)
Definition list_getitem {A} (l : list A) (i : Z) : option A :=
  let n := Z.of_nat (length l) in
  if bool_decide (0 ≤ i < n)%Z then l !! Z.to_nat i
  else if bool_decide (- n ≤ i < 0)%Z then l !! Z.to_nat (n + i)
  else None.

(** [[l[i] for i in idx]]: the first bad index raises [IndexError]. *)
Definition list_comprehension_getitem {St A}
    (l : list A) (idx : list Z) : M St (list A) :=
  match mapM (list_getitem l) idx with
  | Some r => ret r
  | None => raise IndexError
  end.

(** [[f(a) for a in l]] where [f] is a call that may change the state or
    raise: the elements are visited in order. *)
Fixpoint list_comprehension {St A B} (f : A → M St B) (l : list A)
  : M St (list B) :=
  match l with
  | [] => ret []
  | a :: l' => bind (f a) (λ b, bind (list_comprehension f l') (λ bs, ret (b :: bs)))
  end.

(** [random]: the generator is the sequence of raw draws still to come;
    [randint a b] consumes one and lands in [a .. b], both ends
    included, as the library documents. *)
Record Random := { draws : nat → nat; cursor : nat }.

Definition randint (a b : Z) (g : Random) : Z * Random :=
  ((a + Z.of_nat (draws g (cursor g)) `mod` (b - a + 1))%Z,
   {| draws := draws g; cursor := S (cursor g) |}).

End Python.

Import Python.

Declare Scope py_scope.
Delimit Scope py_scope with py.
Notation "x ⇐ m ;; k" := (bind m (λ x, k))
  (at level 100, m at next level, right associativity) : py_scope.
Notation "m ;;; k" := (bind m (λ _, k))
  (at level 100, right associativity) : py_scope.
Local Open Scope py_scope.

(** ** pandas: the tables and the operations the controllers use *)

Module Pandas.

(** Row and column labels are strings (axis names, sample names). *)
Abbreviation label := string (only parsing).

Record Series (A : Type) := { s_index : list label; s_values : list A }.
Arguments s_index {A} _.
Arguments s_values {A} _.

(** [pd.Series(values, index=index)] of a list: the lengths have to agree,
    else pandas raises [ValueError]. *)
Definition pd_Series {St A} (values : list A) (index : list label)
  : M St (Series A) :=
  if decide (length values = length index)
  then ret {| s_index := index; s_values := values |}
  else raise ValueError.

Section Cells.
(** The numbers in the cells.  The controllers move them around and never
    compute with them, so their type is left open. *)
Context {num : Type}.

(** A table of samples × named axes: the row labels and, per column, its
    label and its cells (DimensionValues). *)
Record DimFrame := { df_index : list label;
                     df_columns : list (label * list num) }.

(** A table with the two columns [x] and [y], one row per label (Vectors,
    MappedPoints). *)
Record XYFrame := { xy_rows : list (label * (num * num)) }.

Definition xy_index (f : XYFrame) : list label := (xy_rows f).*1.
Definition df_column_labels (f : DimFrame) : list label := (df_columns f).*1.

(** [df['x']], [df['y']] *)
Definition xy_getitem_x (f : XYFrame) : Series num :=
  {| s_index := xy_index f; s_values := (λ r, r.2.1) <$> xy_rows f |}.
Definition xy_getitem_y (f : XYFrame) : Series num :=
  {| s_index := xy_index f; s_values := (λ r, r.2.2) <$> xy_rows f |}.

(** [drop(labels, axis=...)], with its default [errors='raise'], first
    checks that every label occurs on the axis. *)
Definition labels_on_axis (labels : gset label) (axis : list label) : bool :=
  bool_decide (set_Forall (λ a, a ∈ axis) labels).

Definition keep {A} (labels : gset label) (entries : list (label * A))
  : list (label * A) :=
  filter (λ e, e.1 ∉ labels) entries.

(** [df.drop(labels, axis=0)] on a Vectors table: the rows whose label is
    in [labels] go, all of them when a label repeats. *)
Definition xy_drop_rows (labels : gset label) (f : XYFrame)
  : option XYFrame :=
  if labels_on_axis labels (xy_index f)
  then Some {| xy_rows := keep labels (xy_rows f) |}
  else None.

(** [df.drop(labels, axis=1)] on a DimensionValues table. *)
Definition df_drop_columns (labels : gset label) (f : DimFrame)
  : option DimFrame :=
  if labels_on_axis labels (df_column_labels f)
  then Some {| df_index := df_index f;
               df_columns := keep labels (df_columns f) |}
  else None.

(** *** The label slice [a:a] of [.loc]

    pandas resolves each bound to a position.  When the label occurs,
    its occurrences have to be contiguous and the slice covers them;
    when it does not occur, a sorted index gives an empty slice (which
    one makes no difference to an assignment: it is [(0, 0)] below) and
    an unsorted one raises [KeyError]. *)
Fixpoint positions (a : label) (index : list label) (i : nat) : list nat :=
  match index with
  | [] => []
  | b :: index' =>
      if decide (a = b) then i :: positions a index' (S i)
      else positions a index' (S i)
  end.

Fixpoint monotonic (le : label → label → bool) (index : list label) : bool :=
  match index with
  | a :: (b :: _) as index' => le a b && monotonic le index'
  | _ => true
  end.

Definition is_monotonic (index : list label) : bool :=
  monotonic String.leb index || monotonic (λ a b, String.leb b a) index.

(** The half-open range of positions [start, stop) selected by [a:a];
    [None] is the [KeyError]. *)
Definition loc_slice (a : label) (index : list label) : option (nat * nat) :=
  match positions a index 0 with
  | [] => if is_monotonic index then Some (0, 0) else None
  | p :: ps =>
      let q := List.last ps p in
      if decide (length (p :: ps) = S (q - p)) then Some (p, S q) else None
  end.

Definition set_x (x1 : num) (r : label * (num * num)) := (r.1, (x1, r.2.2)).
Definition set_y (y1 : num) (r : label * (num * num)) := (r.1, (r.2.1, y1)).

(** Apply [g] to the rows at positions [start, stop). *)
Definition map_range {A} (g : A → A) (start stop : nat) (l : list A) : list A :=
  imap (λ i r, if bool_decide (start ≤ i < stop) then g r else r) l.

(** [df.loc[a:a, 'x'] = x1] and [df.loc[a:a, 'y'] = y1] *)
Definition xy_loc_slice_set (g : label * (num * num) → label * (num * num))
    (a : label) (f : XYFrame) : option XYFrame :=
  match loc_slice a (xy_index f) with
  | Some (start, stop) =>
      Some {| xy_rows := map_range g start stop (xy_rows f) |}
  | None => None
  end.

(** *** The plot data source: [source.data] maps a column name to a
    sequence, of colours or of numbers. *)
Inductive column := ColStr (s : Series string) | ColNum (s : Series num).

Record Source := { data : gmap string column }.

Definition data_setitem (name : string) (c : column) (src : Source) : Source :=
  {| data := <[name := c]> (data src) |}.

End Cells.

Arguments DimFrame : clear implicits.
Arguments XYFrame : clear implicits.
Arguments column : clear implicits.
Arguments Source : clear implicits.

End Pandas.

Import Pandas.

(** ** cluster_controller.py *)

Module ClusterController.

Definition CLUSTERING_COLOR_COLUMN : string := "color".
Definition DEFAULT_LABEL_COLORS : list string :=
  ["red"; "navy"; "green"; "orange"; "grey"; "yellow"; "black"].

Section Controller.
Context {num : Type}.

(** [ClusteringRegister.get_algorithm_dict()] and [DUMMY_ID] come from the
    backend, which is outside these files: the registry maps an algorithm
    id to its [execute(data, n_clusters=k)], which yields the labels. *)
Variable algorithm_dict : string → DimFrame num → Z → list Z.
Variable DUMMY_ID : string.

(** The fields of the controller; [_active_algorithm_id] is the one the
    base class keeps.  Nothing stated below depends on who else holds the
    source, so the field holds the contents of the object. *)
Record ClusterController := {
  _active_algorithm_id : string;
  _clustering_dic : gmap (string * Z) (list Z);
  _label_colors : list string;
  _source : option (Source num);
  _n_clusters : Z;
}.

(** The controller together with the record of the calls made to the
    clustering algorithms: which one, on which data, with which [k]. *)
Record World := {
  self : ClusterController;
  executed : list (string * DimFrame num * Z);
}.

Definition set_clustering_dic (d : gmap (string * Z) (list Z)) (w : World) :=
  {| self := {| _active_algorithm_id := _active_algorithm_id (self w);
                _clustering_dic := d;
                _label_colors := _label_colors (self w);
                _source := _source (self w);
                _n_clusters := _n_clusters (self w) |};
     executed := executed w |}.

Definition set_source (src : option (Source num)) (w : World) :=
  {| self := {| _active_algorithm_id := _active_algorithm_id (self w);
                _clustering_dic := _clustering_dic (self w);
                _label_colors := _label_colors (self w);
                _source := src;
                _n_clusters := _n_clusters (self w) |};
     executed := executed w |}.

Definition set_n_clusters (n : Z) (w : World) :=
  {| self := {| _active_algorithm_id := _active_algorithm_id (self w);
                _clustering_dic := _clustering_dic (self w);
                _label_colors := _label_colors (self w);
                _source := _source (self w);
                _n_clusters := n |};
     executed := executed w |}.

(** Modelled from the spec: the base class [AbstractAlgorithmController]
    is not among these files.  It "holds a registry of named algorithms
    and an active selection" and its constructor takes the default id,
    the registry and the requested active id. *)
Definition get_active_algorithm_id : M World string :=
  gets (λ w, _active_algorithm_id (self w)).

(** Modelled from the spec: [execute_active_algorithm(data, n_clusters=k)]
    of the same base class runs the active algorithm of the registry,
    "execute(data, **params) -> labels_or_points".  The call is
    recorded. *)
Definition execute_active_algorithm (dimension_values_df : DimFrame num)
    (n_clusters : Z) : M World (list Z) :=
  λ w, let algorithm_id := _active_algorithm_id (self w) in
       Returns (algorithm_dict algorithm_id dimension_values_df n_clusters)
               {| self := self w;
                  executed := executed w ++
                    [(algorithm_id, dimension_values_df, n_clusters)] |}.

(** [__init__(algorithm_id=None, source=None, label_colors=None,
    n_clusters=4)]: a missing or empty palette gives the default one. *)
Definition init (algorithm_id : option string) (source : option (Source num))
    (label_colors : option (list string)) (n_clusters : Z) : World :=
  {| self := {| _active_algorithm_id := default DUMMY_ID algorithm_id;
                _clustering_dic := ∅;
                _label_colors := match label_colors with
                                 | Some (c :: cs) => c :: cs
                                 | _ => DEFAULT_LABEL_COLORS
                                 end;
                _source := source;
                _n_clusters := n_clusters |};
     executed := [] |}.

(** [(self.get_active_algorithm_id(), self._n_clusters)] *)
Definition pair_key (w : World) : string * Z :=
  (_active_algorithm_id (self w), _n_clusters (self w)).

(** Lines 42-45 of [update_clusters]: the colours of the labels, and
    their assignment to the source when there is one. *)
Definition assign_colors (labels : list Z) (dimension_values_df : DimFrame num)
  : M World unit :=
  label_colors ⇐ gets (λ w, _label_colors (self w)) ;;
  colors ⇐ list_comprehension_getitem label_colors labels ;;
  source ⇐ gets (λ w, _source (self w)) ;;
  match source with
  | Some src =>
      series ⇐ pd_Series colors (df_index dimension_values_df) ;;
      modify (set_source (Some (data_setitem "color" (ColStr series) src)))
  | None => ret tt
  end.

Definition update_clusters (dimension_values_df : DimFrame num) : M World unit :=
  algorithm_id ⇐ get_active_algorithm_id ;;
  n_clusters ⇐ gets (λ w, _n_clusters (self w)) ;;
  let pair_key := (algorithm_id, n_clusters) in
  clustering_dic ⇐ gets (λ w, _clustering_dic (self w)) ;;
  labels ⇐ match clustering_dic !! pair_key with
           | Some labels => ret labels
           | None =>
               labels ⇐ execute_active_algorithm dimension_values_df n_clusters ;;
               modify (λ w, set_clustering_dic
                              (<[pair_key := labels]> (_clustering_dic (self w))) w) ;;;
               ret labels
           end ;;
  assign_colors labels dimension_values_df.

Definition update_number_of_clusters (n_clusters : Z) : M World unit :=
  if bool_decide (n_clusters < 3)%Z then raise ValueError
  else modify (set_n_clusters n_clusters).

Definition get_number_of_clusters : M World Z :=
  gets (λ w, _n_clusters (self w)).

Definition get_classes : M World (list Z) :=
  algorithm_id ⇐ get_active_algorithm_id ;;
  n_clusters ⇐ gets (λ w, _n_clusters (self w)) ;;
  let pair_key := (algorithm_id, n_clusters) in
  clustering_dic ⇐ gets (λ w, _clustering_dic (self w)) ;;
  match clustering_dic !! pair_key with
  | Some labels => ret labels
  | None => raise KeyError
  end.

(** The calls a client can make, and a client making them one after the
    other, going on after a call that raised. *)
Inductive call :=
| UpdateClusters (dimension_values_df : DimFrame num)
| UpdateNumberOfClusters (n_clusters : Z)
| GetNumberOfClusters
| GetClasses.

Definition perform (c : call) (w : World) : World :=
  match c with
  | UpdateClusters d => after (update_clusters d w) w
  | UpdateNumberOfClusters n => after (update_number_of_clusters n w) w
  | GetNumberOfClusters => after (get_number_of_clusters w) w
  | GetClasses => after (get_classes w) w
  end.

Definition perform_all (cs : list call) (w : World) : World :=
  foldl (λ w c, perform c w) w cs.

(** The labels [update_clusters] works with: the cached ones when the
    pair has an entry, the ones the algorithm computes otherwise. *)
Definition labels_of (d : DimFrame num) (w : World) : list Z :=
  match _clustering_dic (self w) !! pair_key w with
  | Some labels => labels
  | None => algorithm_dict (_active_algorithm_id (self w)) d (_n_clusters (self w))
  end.

(** The world once the algorithm has run and its labels are cached
    (lines 38-40 of [update_clusters]). *)
Definition computed (d : DimFrame num) (w : World) : World :=
  set_clustering_dic
    (<[pair_key w := labels_of d w]> (_clustering_dic (self w)))
    {| self := self w;
       executed := executed w ++
         [(_active_algorithm_id (self w), d, _n_clusters (self w))] |}.

(** What [assign_colors] may change is the source, nothing else. *)
Definition same_but_source (w w' : World) : Prop :=
  _active_algorithm_id (self w') = _active_algorithm_id (self w) ∧
  _clustering_dic (self w') = _clustering_dic (self w) ∧
  _label_colors (self w') = _label_colors (self w) ∧
  _n_clusters (self w') = _n_clusters (self w) ∧
  executed w' = executed w.

End Controller.

Arguments ClusterController : clear implicits.
Arguments World : clear implicits.
Arguments call : clear implicits.

End ClusterController.

(** ** mapper_controller.py *)

Module MapperController.

(** A reference names an object of the store. *)
Abbreviation ref := nat (only parsing).

Section Controller.
Context {num : Type}.

(** [MappingRegister.get_algorithm_dict()] and [DUMMY_COORDINATES_ID] come
    from the backend, which is outside these files: the registry maps a
    mapping id to its [execute(dimension_values, vectors)], which yields
    the table of mapped points. *)
Variable algorithm_dict : string → DimFrame num → XYFrame num → XYFrame num.
Variable DUMMY_COORDINATES_ID : string.

(** The fields of the controller.  The tables, the source and the
    animator are objects it shares with its caller: the fields hold
    references. *)
Record MapperController := {
  _active_algorithm_id : string;
  _dimension_values_df : ref;
  _vectors_df : ref;
  _source_points : option ref;
  _animator : option ref;
  _last_mapped_points_df : option ref;
  _ignored_axis_ids : gset label;
}.

(** The controller, the objects of the store by kind, and the records of
    the calls made to the mapping algorithms (which one, on which
    tables) and to animators (which one, previous points, new points). *)
Record World := {
  self : MapperController;
  tables : gmap ref (DimFrame num);
  frames : gmap ref (XYFrame num);
  sources : gmap ref (Source num);
  executed : list (string * DimFrame num * XYFrame num);
  animated : list (ref * option ref * ref);
}.

Definition with_self (c : MapperController) (w : World) : World :=
  {| self := c; tables := tables w; frames := frames w;
     sources := sources w; executed := executed w; animated := animated w |}.
Definition with_tables (t : gmap ref (DimFrame num)) (w : World) : World :=
  {| self := self w; tables := t; frames := frames w;
     sources := sources w; executed := executed w; animated := animated w |}.
Definition with_frames (f : gmap ref (XYFrame num)) (w : World) : World :=
  {| self := self w; tables := tables w; frames := f;
     sources := sources w; executed := executed w; animated := animated w |}.
Definition with_sources (s : gmap ref (Source num)) (w : World) : World :=
  {| self := self w; tables := tables w; frames := frames w;
     sources := s; executed := executed w; animated := animated w |}.
Definition with_executed (e : list (string * DimFrame num * XYFrame num))
    (w : World) : World :=
  {| self := self w; tables := tables w; frames := frames w;
     sources := sources w; executed := e; animated := animated w |}.
Definition with_animated (a : list (ref * option ref * ref)) (w : World) : World :=
  {| self := self w; tables := tables w; frames := frames w;
     sources := sources w; executed := executed w; animated := a |}.

Definition set_ignored_axis_ids (s : gset label) (c : MapperController) :=
  {| _active_algorithm_id := _active_algorithm_id c;
     _dimension_values_df := _dimension_values_df c;
     _vectors_df := _vectors_df c;
     _source_points := _source_points c;
     _animator := _animator c;
     _last_mapped_points_df := _last_mapped_points_df c;
     _ignored_axis_ids := s |}.
Definition set_last_mapped_points_df (r : option ref) (c : MapperController) :=
  {| _active_algorithm_id := _active_algorithm_id c;
     _dimension_values_df := _dimension_values_df c;
     _vectors_df := _vectors_df c;
     _source_points := _source_points c;
     _animator := _animator c;
     _last_mapped_points_df := r;
     _ignored_axis_ids := _ignored_axis_ids c |}.
Definition set_dimension_values_df (r : ref) (c : MapperController) :=
  {| _active_algorithm_id := _active_algorithm_id c;
     _dimension_values_df := r;
     _vectors_df := _vectors_df c;
     _source_points := _source_points c;
     _animator := _animator c;
     _last_mapped_points_df := _last_mapped_points_df c;
     _ignored_axis_ids := _ignored_axis_ids c |}.
Definition set_animator (a : option ref) (c : MapperController) :=
  {| _active_algorithm_id := _active_algorithm_id c;
     _dimension_values_df := _dimension_values_df c;
     _vectors_df := _vectors_df c;
     _source_points := _source_points c;
     _animator := a;
     _last_mapped_points_df := _last_mapped_points_df c;
     _ignored_axis_ids := _ignored_axis_ids c |}.

(** *** The store *)

Definition read_table (r : ref) : M World (DimFrame num) :=
  λ w, match tables w !! r with Some t => Returns t w | None => Stuck end.
Definition read_frame (r : ref) : M World (XYFrame num) :=
  λ w, match frames w !! r with Some f => Returns f w | None => Stuck end.
Definition read_source (r : ref) : M World (Source num) :=
  λ w, match sources w !! r with Some s => Returns s w | None => Stuck end.

(** A new object gets a reference no object of its kind has. *)
Definition new_table (t : DimFrame num) : M World ref :=
  λ w, let r := fresh (dom (tables w)) in
       Returns r (with_tables (<[r := t]> (tables w)) w).
Definition new_frame (f : XYFrame num) : M World ref :=
  λ w, let r := fresh (dom (frames w)) in
       Returns r (with_frames (<[r := f]> (frames w)) w).

Definition write_table (r : ref) (t : DimFrame num) : M World unit :=
  modify (λ w, with_tables (<[r := t]> (tables w)) w).
Definition write_frame (r : ref) (f : XYFrame num) : M World unit :=
  modify (λ w, with_frames (<[r := f]> (frames w)) w).
Definition write_source (r : ref) (s : Source num) : M World unit :=
  modify (λ w, with_sources (<[r := s]> (sources w)) w).

(** [df.copy()] *)
Definition table_copy (r : ref) : M World ref :=
  t ⇐ read_table r ;; new_table t.
Definition frame_copy (r : ref) : M World ref :=
  f ⇐ read_frame r ;; new_frame f.

(** [df.drop(labels, axis=1, inplace=True)] and
    [df.drop(labels, axis=0, inplace=True)]: a label that is not on the
    axis is a lookup failure. *)
Definition table_drop_inplace (labels : gset label) (r : ref) : M World unit :=
  t ⇐ read_table r ;;
  match df_drop_columns labels t with
  | Some t' => write_table r t'
  | None => raise KeyError
  end.
Definition frame_drop_inplace (labels : gset label) (r : ref) : M World unit :=
  f ⇐ read_frame r ;;
  match xy_drop_rows labels f with
  | Some f' => write_frame r f'
  | None => raise KeyError
  end.

(** [df.loc[a:a, 'x'] = x1] (with [set_x x1]) and
    [df.loc[a:a, 'y'] = y1] (with [set_y y1]) *)
Definition frame_loc_slice_set
    (g : label * (num * num) → label * (num * num)) (a : label) (r : ref)
  : M World unit :=
  f ⇐ read_frame r ;;
  match xy_loc_slice_set g a f with
  | Some f' => write_frame r f'
  | None => raise KeyError
  end.

(** [source.data[name] = series] *)
Definition source_data_setitem (r : ref) (name : string) (s : Series num)
  : M World unit :=
  src ⇐ read_source r ;;
  write_source r (data_setitem name (ColNum s) src).

(** [animator.get_animation_sequence(previous, new)]: the animator is an
    external collaborator; the call is recorded. *)
Definition get_animation_sequence (animator : ref) (previous : option ref)
    (new : ref) : M World unit :=
  modify (λ w, with_animated (animated w ++ [(animator, previous, new)]) w).

(** *** The controller *)

Definition attr {A} (field : MapperController → A) : M World A :=
  gets (λ w, field (self w)).

(** Modelled from the spec: the base class [AbstractAlgorithmController]
    is not among these files.  It "holds a registry of named algorithms
    and an active selection". *)
Definition get_active_algorithm_id : M World string :=
  attr _active_algorithm_id.

(** Modelled from the spec: [execute_active_algorithm(dimension_values,
    vectors)] of the same base class runs the active algorithm of the
    registry on the two tables, "execute(data, **params) ->
    labels_or_points"; the result is a new table.  The call is
    recorded. *)
Definition execute_active_algorithm (dimension_values_df vectors_df : ref)
  : M World ref :=
  algorithm_id ⇐ attr _active_algorithm_id ;;
  dimension_values ⇐ read_table dimension_values_df ;;
  vectors ⇐ read_frame vectors_df ;;
  modify (λ w, with_executed
                 (executed w ++ [(algorithm_id, dimension_values, vectors)]) w) ;;;
  new_frame (algorithm_dict algorithm_id dimension_values vectors).

(** [__init__(dimension_values_df, vectors_df, source_points=None,
    mapping_id=None, animator=None)] *)
Definition init (dimension_values_df vectors_df : ref)
    (source_points : option ref) (mapping_id : option string)
    (animator : option ref) : MapperController :=
  {| _active_algorithm_id := default DUMMY_COORDINATES_ID mapping_id;
     _dimension_values_df := dimension_values_df;
     _vectors_df := vectors_df;
     _source_points := source_points;
     _animator := animator;
     _last_mapped_points_df := None;
     _ignored_axis_ids := ∅ |}.

Definition update_axis_status (axis_id : label) (visible : bool) : M World unit :=
  if visible
  then modify (λ w, with_self (set_ignored_axis_ids
                      (_ignored_axis_ids (self w) ∖ {[axis_id]}) (self w)) w)
  else modify (λ w, with_self (set_ignored_axis_ids
                      (_ignored_axis_ids (self w) ∪ {[axis_id]}) (self w)) w).

Definition is_axis_visible (axis_id : label) : M World bool :=
  ignored_axis_ids ⇐ attr _ignored_axis_ids ;;
  ret (negb (bool_decide (axis_id ∈ ignored_axis_ids))).

Definition get_vectors : M World ref :=
  vectors_df ⇐ attr _vectors_df ;;
  vectors_df_cp ⇐ frame_copy vectors_df ;;
  ignored_axis_ids ⇐ attr _ignored_axis_ids ;;
  (if bool_decide (ignored_axis_ids ≠ ∅)
   then frame_drop_inplace ignored_axis_ids vectors_df_cp
   else ret tt) ;;;
  ret vectors_df_cp.

Definition get_dimension_values : M World ref :=
  dimension_values_df ⇐ attr _dimension_values_df ;;
  dimension_values_df_cp ⇐ table_copy dimension_values_df ;;
  ignored_axis_ids ⇐ attr _ignored_axis_ids ;;
  (if bool_decide (ignored_axis_ids ≠ ∅)
   then table_drop_inplace ignored_axis_ids dimension_values_df_cp
   else ret tt) ;;;
  ret dimension_values_df_cp.

Definition get_filtered_mapping_df : M World (ref * ref) :=
  dimension_values ⇐ get_dimension_values ;;
  vectors ⇐ get_vectors ;;
  ret (dimension_values, vectors).

Definition execute_mapping : M World ref :=
  dimension_values_df ⇐ attr _dimension_values_df ;;
  vectors_df ⇐ attr _vectors_df ;;
  ignored_axis_ids ⇐ attr _ignored_axis_ids ;;
  filtered ⇐ (if bool_decide (ignored_axis_ids ≠ ∅)
              then get_filtered_mapping_df
              else ret (dimension_values_df, vectors_df)) ;;
  mapped_points_df ⇐ execute_active_algorithm filtered.1 filtered.2 ;;
  animator ⇐ attr _animator ;;
  source_points ⇐ attr _source_points ;;
  match animator, source_points with
  | Some animator, _ =>
      last_mapped_points_df ⇐ attr _last_mapped_points_df ;;
      get_animation_sequence animator last_mapped_points_df mapped_points_df
  | None, Some source_points =>
      mapped_points ⇐ read_frame mapped_points_df ;;
      source_data_setitem source_points "x" (xy_getitem_x mapped_points) ;;;
      source_data_setitem source_points "y" (xy_getitem_y mapped_points)
  | None, None => ret tt
  end ;;;
  modify (λ w, with_self (set_last_mapped_points_df
                            (Some mapped_points_df) (self w)) w) ;;;
  ret mapped_points_df.

Definition get_mapped_points : M World (option ref) :=
  attr _last_mapped_points_df.

Definition update_dimension_values (dimension_values_df : ref) : M World unit :=
  modify (λ w, with_self (set_dimension_values_df dimension_values_df (self w)) w).

Definition update_single_vector (axis_id : label) (x1 y1 : num) : M World unit :=
  vectors_df ⇐ attr _vectors_df ;;
  frame_loc_slice_set (set_x x1) axis_id vectors_df ;;;
  vectors_df ⇐ attr _vectors_df ;;
  frame_loc_slice_set (set_y y1) axis_id vectors_df.

Definition update_animator (animator : option ref) : M World unit :=
  modify (λ w, with_self (set_animator animator (self w)) w).

Definition get_axis_status : M World (list (label * bool)) :=
  vectors_df ⇐ attr _vectors_df ;;
  vectors ⇐ read_frame vectors_df ;;
  list_comprehension
    (λ axis_id, visible ⇐ is_axis_visible axis_id ;; ret (axis_id, visible))
    (xy_index vectors).

(** *** The parts of [execute_mapping], and what the getters hand out *)

(** Lines 89-94: the tables the algorithm is given, and its run. *)
Definition compute_mapping : M World ref :=
  dimension_values_df ⇐ attr _dimension_values_df ;;
  vectors_df ⇐ attr _vectors_df ;;
  ignored_axis_ids ⇐ attr _ignored_axis_ids ;;
  filtered ⇐ (if bool_decide (ignored_axis_ids ≠ ∅)
              then get_filtered_mapping_df
              else ret (dimension_values_df, vectors_df)) ;;
  execute_active_algorithm filtered.1 filtered.2.

(** Lines 96-101: the animator if there is one, else the source if there
    is one. *)
Definition show_mapping (mapped_points_df : ref) : M World unit :=
  animator ⇐ attr _animator ;;
  source_points ⇐ attr _source_points ;;
  match animator, source_points with
  | Some animator, _ =>
      last_mapped_points_df ⇐ attr _last_mapped_points_df ;;
      get_animation_sequence animator last_mapped_points_df mapped_points_df
  | None, Some source_points =>
      mapped_points ⇐ read_frame mapped_points_df ;;
      source_data_setitem source_points "x" (xy_getitem_x mapped_points) ;;;
      source_data_setitem source_points "y" (xy_getitem_y mapped_points)
  | None, None => ret tt
  end.

(** The contents of the copy [get_vectors] returns, for the stored
    vectors [f]: [None] when the drop fails. *)
Definition filtered_vectors (ignored_axis_ids : gset label) (f : XYFrame num)
  : option (XYFrame num) :=
  if bool_decide (ignored_axis_ids ≠ ∅)
  then xy_drop_rows ignored_axis_ids f else Some f.

(** The same for [get_dimension_values]. *)
Definition filtered_dimension_values (ignored_axis_ids : gset label)
    (t : DimFrame num) : option (DimFrame num) :=
  if bool_decide (ignored_axis_ids ≠ ∅)
  then df_drop_columns ignored_axis_ids t else Some t.

(** A client that hides an axis, reads both tables, shows the axis again
    and reads both tables again. *)
Definition hide_then_show (axis_id : label) : M World (ref * ref * (ref * ref)) :=
  update_axis_status axis_id false ;;;
  vectors_hidden ⇐ get_vectors ;;
  dimension_values_hidden ⇐ get_dimension_values ;;
  update_axis_status axis_id true ;;;
  vectors_shown ⇐ get_vectors ;;
  dimension_values_shown ⇐ get_dimension_values ;;
  ret (vectors_hidden, dimension_values_hidden,
       (vectors_shown, dimension_values_shown)).

(** From [w] to [w'] every table of the store is what it was, and the
    controller refers to the same two tables. *)
Definition stored_tables_kept (w w' : World) : Prop :=
  (∀ r f, frames w !! r = Some f → frames w' !! r = Some f) ∧
  (∀ r t, tables w !! r = Some t → tables w' !! r = Some t) ∧
  _vectors_df (self w') = _vectors_df (self w) ∧
  _dimension_values_df (self w') = _dimension_values_df (self w).

End Controller.

Arguments MapperController : clear implicits.
Arguments World : clear implicits.

End MapperController.

(** ** axisgenerator.py *)

Module AxisGenerator.

Section Floats.
(** Python's floats and the operations on them the module uses, left
    abstract: [float(z)], [+], [*], true division, [math.radians],
    [math.cos], [math.sin], [abs] and [<]. *)
Variable float : Type.
Variable of_int : Z → float.
Variables fadd fmul fdiv : float → float → float.
Variables radians cos sin fabs : float → float.
Variable flt : float → float → bool.

(** A Python number is an [int] or a [float]; arithmetic on two ints
    stays in the ints, anything else is done in the floats. *)
Inductive number := Int (z : Z) | Float (f : float).

Definition to_float (a : number) : float :=
  match a with Int z => of_int z | Float f => f end.

Definition add (a b : number) : number :=
  match a, b with
  | Int x, Int y => Int (x + y)
  | _, _ => Float (fadd (to_float a) (to_float b))
  end.

Definition mul (a b : number) : number :=
  match a, b with
  | Int x, Int y => Int (x * y)
  | _, _ => Float (fmul (to_float a) (to_float b))
  end.

(** [i * (360/n_lines)] under [from __future__ import division]: the
    quotient is a float, and so is the product. *)
Definition degrees (i n_lines : nat) : float :=
  fmul (of_int (Z.of_nat i)) (fdiv (of_int 360) (of_int (Z.of_nat n_lines))).

(** [if abs(v) < 0.00000000: v = 0] *)
Definition snap (v : float) : number :=
  if flt (fabs v) (of_int 0) then Int 0 else Float v.

(** The body of the loop of [_subdivide_circle] for one [i]. *)
Definition segment_at (centre : number * number) (n_lines i : nat)
    (g : Random) : list number * Random :=
  let angle := radians (degrees i n_lines) in
  let '(x0, y0) := centre in
  let cos_ := snap (cos angle) in
  let sin_ := snap (sin angle) in
  let '(r, g) := randint 1 9 g in
  let x1 := add x0 (mul (Int r) cos_) in
  let y1 := add y0 (mul (Int r) sin_) in
  ([x0; x1; y0; y1], g).

Fixpoint subdivide_loop (centre : number * number) (n_lines : nat)
    (range : list nat) (segment_list : list (list number)) (g : Random)
  : list (list number) * Random :=
  match range with
  | [] => (segment_list, g)
  | i :: range' =>
      let '(segment, g) := segment_at centre n_lines i g in
      subdivide_loop centre n_lines range' (segment_list ++ [segment]) g
  end.

Definition _subdivide_circle (centre : number * number) (n_lines : nat)
    (g : Random) : list (list number) * Random :=
  subdivide_loop centre n_lines (seq 0 n_lines) [] g.

(** [pd.DataFrame(rows, index)]: one row of cells per label. *)
Record DataFrame := { index : list string; rows : list (list number) }.

(** The process the function runs in: the random generator and what has
    been printed so far. *)
Record Process := { rng : Random; stdout : list DataFrame }.

(** [generate_star_axis] builds the table, prints it, and ends without a
    [return]: its value is [None], the [tt] of [unit]. *)
Definition generate_star_axis (axis_labels : list string) : M Process unit :=
  λ p, let n_lines := length axis_labels in
       let '(segment_list, g) :=
         _subdivide_circle (Int 0, Int 0) n_lines (rng p) in
       let df := {| index := axis_labels; rows := segment_list |} in
       Returns tt {| rng := g; stdout := stdout p ++ [df] |}.

(** The segment of line [i] out of [n_lines] for the radius [r]: from
    the centre [(0, 0)] to the point at [i * (360/n_lines)] degrees and
    distance [r], laid out as [[x0, x1, y0, y1]]. *)
Definition star_segment (n_lines i : nat) (r : Z) : list number :=
  let angle := radians (degrees i n_lines) in
  [Int 0; add (Int 0) (mul (Int r) (snap (cos angle)));
   Int 0; add (Int 0) (mul (Int r) (snap (sin angle)))].

(** The same for any centre: the segment [[x0, x1, y0, y1]] of line [i]. *)
Definition segment_of (centre : number * number) (n_lines i : nat) (r : Z)
  : list number :=
  let angle := radians (degrees i n_lines) in
  [centre.1; add centre.1 (mul (Int r) (snap (cos angle)));
   centre.2; add centre.2 (mul (Int r) (snap (sin angle)))].

(** The next [k] radii [random.randint(1,9)] gives. *)
Fixpoint radii (k : nat) (g : Random) : list Z * Random :=
  match k with
  | 0 => ([], g)
  | S k' => let '(r, g) := randint 1 9 g in
            let '(rs, g) := radii k' g in
            (r :: rs, g)
  end.

End Floats.

Arguments Int {float} z.
Arguments Float {float} f.
Arguments index {float} d.
Arguments rows {float} d.
Arguments rng {float} p.
Arguments stdout {float} p.

End AxisGenerator.

(** ** Python's floats

    A Python [float] is an IEEE 754 binary64 number: the zeros,
    infinities, NaN and finite numbers of the Standard Library's
    [spec_float], with 53 bits of precision, and its operations rounding
    to nearest even. *)

Module Binary64.

Definition prec : Z := 53.
Definition emax : Z := 1024.

Definition float : Type := SpecFloat.spec_float.

(** [float(z)] *)
Definition of_int (z : Z) : float := SpecFloat.binary_normalize prec emax z 0 false.

Definition fadd : float → float → float := SpecFloat.SFadd prec emax.
Definition fmul : float → float → float := SpecFloat.SFmul prec emax.
Definition fdiv : float → float → float := SpecFloat.SFdiv prec emax.

(** [abs(v)] and [v < w] *)
Definition fabs : float → float := SpecFloat.SFabs.
Definition flt : float → float → bool := SpecFloat.SFltb.

End Binary64.

(** ** A small session: four samples on three axes *)

Module Session.

(** The dimension values: samples [p0 .. p3] on the axes [a], [b], [c]. *)
Definition samples : DimFrame Z :=
  {| df_index := ["p0"; "p1"; "p2"; "p3"];
     df_columns := [("a", [1; 0; 2; 5]%Z); ("b", [0; 1; 2; 1]%Z);
                    ("c", [3; 3; 0; 1]%Z)] |}.

(** Eight samples on one axis. *)
Definition eight_samples : DimFrame Z :=
  {| df_index := ["q0"; "q1"; "q2"; "q3"; "q4"; "q5"; "q6"; "q7"];
     df_columns := [("a", [1; 2; 3; 4; 5; 6; 7; 8]%Z)] |}.

(** The vectors of the three axes. *)
Definition vectors : XYFrame Z :=
  {| xy_rows := [("a", (4, 0)%Z); ("b", (0, 4)%Z); ("c", (-3, -3)%Z)] |}.

(** A clustering registry: whatever the id, row [i] gets label
    [i mod k]. *)
Definition clustering_dict (algorithm_id : string) (d : DimFrame Z)
    (n_clusters : Z) : list Z :=
  (λ i, Z.of_nat i `mod` n_clusters)%Z <$> seq 0 (length (df_index d)).

(** A mapping registry: whatever the id, the star coordinates of each
    sample, the sum of its values times the vectors of their axes. *)
Definition cell (col : label * list Z) (i : nat) : Z := default 0%Z (col.2 !! i).

Definition weighted (d : DimFrame Z) (v : XYFrame Z)
    (i : nat) (part : Z * Z → Z) : Z :=
  foldr Z.add 0%Z
    (zip_with (λ col r, cell col i * part r.2)%Z (df_columns d) (xy_rows v)).

Definition mapping_dict (algorithm_id : string) (d : DimFrame Z)
    (v : XYFrame Z) : XYFrame Z :=
  {| xy_rows := imap (λ i s, (s, (weighted d v i fst, weighted d v i snd)))
                     (df_index d) |}.

(** A cluster controller with the default palette and [k = 4], on a source
    with no column yet. *)
Definition cluster_start : ClusterController.World Z :=
  ClusterController.init "dummy" None (Some {| data := ∅ |}) None 4.

(** The same after a first clustering of [samples]. *)
Definition cluster_once : ClusterController.World Z :=
  after (ClusterController.update_clusters clustering_dict samples cluster_start)
        cluster_start.

(** The same controller set to [k = 8]. *)
Definition cluster_eight : ClusterController.World Z :=
  after (ClusterController.update_number_of_clusters 8 cluster_start)
        cluster_start.

(** A mapper controller on [samples] and [vectors], object 0 of each kind,
    writing to the point source 0, without animator... *)
Definition store (animator : option nat) : MapperController.World Z :=
  {| MapperController.self :=
       MapperController.init "dummy" 0 0 (Some 0) None animator;
     MapperController.tables := {[ 0 := samples ]};
     MapperController.frames := {[ 0 := vectors ]};
     MapperController.sources := {[ 0 := {| data := ∅ |} ]};
     MapperController.executed := [];
     MapperController.animated := [] |}.

Definition mapper_start : MapperController.World Z := store None.

(** ... and with the animator 7. *)
Definition mapper_animated : MapperController.World Z := store (Some 7).

(** [mapper_start] once the client has hidden the axis [b]. *)
Definition mapper_b_hidden : MapperController.World Z :=
  after (MapperController.update_axis_status "b" false mapper_start)
        mapper_start.

(** [mapper_start] once the client has hidden [zz], which is no axis of
    the tables. *)
Definition mapper_zz_hidden : MapperController.World Z :=
  after (MapperController.update_axis_status "zz" false mapper_start)
        mapper_start.

(** [mapper_animated] once the client has hidden [zz]. *)
Definition mapper_animated_zz_hidden : MapperController.World Z :=
  after (MapperController.update_axis_status "zz" false mapper_animated)
        mapper_animated.

(** A world in which the table [eight_samples] is object 5 as well. *)
Definition with_second_table (w : MapperController.World Z)
  : MapperController.World Z :=
  MapperController.with_tables
    (<[5 := eight_samples]> (MapperController.tables w)) w.

(** [mapper_start] with the vectors in the order [c], [a], [b]. *)
Definition mapper_unsorted : MapperController.World Z :=
  MapperController.with_frames
    {[ 0 := {| xy_rows := [("c", (-3, -3)%Z); ("a", (4, 0)%Z); ("b", (0, 4)%Z)] |} ]}
    mapper_start.

End Session.

(** * Properties *)

(** ** Python lists *)

Section PythonFacts.

Lemma list_getitem_is_Some {A} (l : list A) (i : Z) :
  is_Some (list_getitem l i) ↔ (- Z.of_nat (length l) ≤ i < Z.of_nat (length l))%Z.
Proof.
  unfold list_getitem. cbv zeta.
  repeat case_bool_decide.
  - rewrite lookup_lt_is_Some. lia.
  - rewrite lookup_lt_is_Some. lia.
  - split; [intros [? [=]] | lia].
Qed.

Lemma list_comprehension_getitem_Returns {St A} (l : list A) (idx : list Z)
    (s s' : St) (r : list A) :
  list_comprehension_getitem l idx s = Returns r s' →
  s' = s ∧ Forall (λ i, - Z.of_nat (length l) ≤ i < Z.of_nat (length l))%Z idx.
Proof.
  unfold list_comprehension_getitem.
  destruct (mapM (list_getitem l) idx) as [r'|] eqn:E; [|discriminate].
  intros [= -> ->]. split; [done|].
  assert (H : is_Some (mapM (list_getitem l) idx)) by (rewrite E; eauto).
  apply mapM_is_Some in H.
  eapply Forall_impl; [exact H|].
  intros i Hi. by apply list_getitem_is_Some.
Qed.

Lemma list_comprehension_getitem_Raises {St A} (l : list A) (idx : list Z)
    (s : St) :
  Exists (λ i, Z.of_nat (length l) ≤ i)%Z idx →
  list_comprehension_getitem (St := St) l idx s = Raises IndexError s.
Proof.
  intros Hex. unfold list_comprehension_getitem.
  destruct (mapM (list_getitem l) idx) as [r'|] eqn:E; [|done].
  assert (H : is_Some (mapM (list_getitem l) idx)) by (rewrite E; eauto).
  apply mapM_is_Some in H.
  apply Exists_exists in Hex as (i & Hin & Hi).
  rewrite Forall_forall in H. specialize (H i Hin).
  apply list_getitem_is_Some in H. lia.
Qed.

Lemma bind_Returns {St A B} (m : M St A) (k : A → M St B) (s s' : St) (b : B) :
  bind m k s = Returns b s' ↔ ∃ a s1, m s = Returns a s1 ∧ k a s1 = Returns b s'.
Proof.
  unfold bind. destruct (m s) as [a s1| |]; split.
  - eauto.
  - by intros (? & ? & [= <- <-] & ?).
  - discriminate.
  - by intros (? & ? & [=] & ?).
  - discriminate.
  - by intros (? & ? & [=] & ?).
Qed.

End PythonFacts.

(** ** ClusterController *)

Module ClusterControllerSpec.
Import ClusterController.

Section Facts.
Context {num : Type}.
Variable algorithm_dict : string → DimFrame num → Z → list Z.

Abbreviation World := (World num).
Abbreviation update_clusters := (update_clusters algorithm_dict).
Abbreviation perform_all := (perform_all algorithm_dict).
Abbreviation perform := (perform algorithm_dict).
Abbreviation labels_of := (labels_of algorithm_dict).
Abbreviation computed := (computed algorithm_dict).

Lemma assign_colors_frame labels d (w : World) :
  same_but_source w (after (assign_colors labels d w) w).
Proof.
  unfold assign_colors, bind, gets.
  unfold list_comprehension_getitem.
  destruct (mapM _ labels) as [colors|]; simpl; [|done].
  destruct (_source (self w)) as [src|]; simpl; [|done].
  unfold pd_Series. destruct (decide _); simpl; done.
Qed.

Lemma assign_colors_not_Stuck labels d (w : World) :
  assign_colors labels d w ≠ Stuck.
Proof.
  unfold assign_colors, bind, gets.
  unfold list_comprehension_getitem.
  destruct (mapM _ labels) as [colors|]; simpl; [|done].
  destruct (_source (self w)) as [src|]; simpl; [|done].
  unfold pd_Series. destruct (decide _); simpl; done.
Qed.

Lemma update_clusters_hit d (w : World) labels :
  _clustering_dic (self w) !! pair_key w = Some labels →
  update_clusters d w = assign_colors labels d w.
Proof.
  intros H. unfold update_clusters, get_active_algorithm_id, bind, gets.
  unfold pair_key in H. by rewrite H.
Qed.

Lemma update_clusters_miss d (w : World) :
  _clustering_dic (self w) !! pair_key w = None →
  update_clusters d w = assign_colors (labels_of d w) d (computed d w).
Proof.
  intros H. unfold update_clusters, get_active_algorithm_id, bind, gets.
  unfold ClusterController.computed, ClusterController.labels_of.
  unfold execute_active_algorithm, modify, ret, pair_key in *.
  rewrite H. reflexivity.
Qed.

Lemma update_clusters_labels_of d (w : World) :
  ∃ w1, update_clusters d w = assign_colors (labels_of d w) d w1 ∧
        _label_colors (self w1) = _label_colors (self w).
Proof.
  destruct (_clustering_dic (self w) !! pair_key w) as [labels|] eqn:E.
  - exists w. split; [|done]. rewrite (update_clusters_hit _ _ _ E).
    unfold ClusterController.labels_of. by rewrite E.
  - exists (computed d w). split; [|done]. by apply update_clusters_miss.
Qed.

(** After [update_clusters], however it ended, the current pair has an
    entry, and the entries there were are as they were. *)
Lemma update_clusters_dic d (w : World) :
  let w' := after (update_clusters d w) w in
  pair_key w' = pair_key w ∧
  _clustering_dic (self w') !! pair_key w = Some (labels_of d w) ∧
  ∀ key labels, _clustering_dic (self w) !! key = Some labels →
                _clustering_dic (self w') !! key = Some labels.
Proof.
  cbv zeta.
  destruct (_clustering_dic (self w) !! pair_key w) as [labels|] eqn:E.
  - rewrite (update_clusters_hit _ _ _ E).
    destruct (assign_colors_frame labels d w) as (Ha & Hd & _ & Hn & _).
    unfold pair_key at 1. rewrite Ha, Hn, Hd.
    unfold ClusterController.labels_of. rewrite E. eauto.
  - rewrite (update_clusters_miss _ _ E).
    pose proof (assign_colors_frame (labels_of d w) d (computed d w))
      as (Ha & Hd & _ & Hn & _).
    pose proof (assign_colors_not_Stuck (labels_of d w) d (computed d w)) as HS.
    assert (Hw : after (assign_colors (labels_of d w) d (computed d w)) w
                 = after (assign_colors (labels_of d w) d (computed d w))
                         (computed d w)).
    { destruct (assign_colors _ _ _); done. }
    rewrite Hw. unfold pair_key at 1. rewrite Ha, Hn, Hd. simpl.
    split; [done|]. split.
    + by rewrite lookup_insert_eq.
    + intros key labels Hk. rewrite lookup_insert_ne; [done|]. congruence.
Qed.

Lemma update_clusters_executed_hit d (w : World) labels :
  _clustering_dic (self w) !! pair_key w = Some labels →
  executed (after (update_clusters d w) w) = executed w.
Proof.
  intros H. rewrite (update_clusters_hit _ _ _ H).
  by destruct (assign_colors_frame labels d w) as (_ & _ & _ & _ & He).
Qed.

(** C1: [update_number_of_clusters n] raises [ValueError] exactly when
    [n < 3]; for every [n >= 3], 3 included, it returns and the stored
    cluster count is [n]; and when it raises, the controller is as it
    was. *)
Theorem update_number_of_clusters_spec (n : Z) (w : World) :
  ((n < 3)%Z ↔ ∃ w', update_number_of_clusters n w = Raises ValueError w') ∧
  ((3 ≤ n)%Z →
     ∃ w', update_number_of_clusters n w = Returns tt w' ∧
           _n_clusters (self w') = n) ∧
  (∀ e w', update_number_of_clusters n w = Raises e w' →
           e = ValueError ∧ w' = w).
Proof.
  unfold update_number_of_clusters, raise, modify.
  case_bool_decide as Hn.
  - split; [|split].
    + split; [eauto | done].
    + lia.
    + by intros e w' [= <- <-].
  - split; [|split].
    + split; [lia | by intros [w' [=]]].
    + intros _. eexists. split; [done|]. done.
    + by intros e w' [=].
Qed.

(** C2: when the cache has an entry for the current (algorithm, k) pair,
    [update_clusters] makes no call to the algorithm and goes on with the
    cached labels; so a second [update_clusters], whatever data it is
    given, makes no call and works with the labels of the first. *)
Theorem update_clusters_cache_hit (d1 d2 : DimFrame num) (w : World) :
  (∀ labels, _clustering_dic (self w) !! pair_key w = Some labels →
     update_clusters d1 w = assign_colors labels d1 w ∧
     executed (after (update_clusters d1 w) w) = executed w) ∧
  (let w1 := after (update_clusters d1 w) w in
   pair_key w1 = pair_key w ∧
   update_clusters d2 w1 = assign_colors (labels_of d1 w) d2 w1 ∧
   executed (after (update_clusters d2 w1) w1) = executed w1).
Proof.
  split.
  - intros labels H. split.
    + by apply update_clusters_hit.
    + by eapply update_clusters_executed_hit.
  - cbv zeta. destruct (update_clusters_dic d1 w) as (Hk & Hl & _).
    rewrite <- Hk in Hl. split; [done|]. split.
    + by apply update_clusters_hit.
    + by eapply update_clusters_executed_hit.
Qed.

(** C5: [get_classes] raises [KeyError] exactly when the cache has no
    entry for the current (algorithm, k) pair; otherwise it returns the
    labels cached for the pair; either way the controller is as it
    was. *)
Theorem get_classes_spec (w : World) :
  (_clustering_dic (self w) !! pair_key w = None ↔
   get_classes w = Raises KeyError w) ∧
  (∀ labels, _clustering_dic (self w) !! pair_key w = Some labels →
             get_classes w = Returns labels w) ∧
  (∀ e w', get_classes w = Raises e w' →
           e = KeyError ∧ w' = w ∧
           _clustering_dic (self w) !! pair_key w = None).
Proof.
  unfold get_classes, get_active_algorithm_id, bind, gets, ret, raise, pair_key.
  destruct (_clustering_dic (self w) !! _) as [labels|].
  - split; [|split]; [split; discriminate | by intros ? [= ->] | discriminate].
  - split; [|split]; [done | discriminate | by intros e w' [= <- <-]].
Qed.

Lemma perform_dic c (w : World) key labels :
  _clustering_dic (self w) !! key = Some labels →
  _clustering_dic (self (perform c w)) !! key = Some labels.
Proof.
  intros H. destruct c as [d|n| |]; simpl.
  - by apply update_clusters_dic.
  - unfold update_number_of_clusters, raise, modify.
    by case_bool_decide.
  - done.
  - unfold get_classes, get_active_algorithm_id, bind, gets, ret, raise.
    by destruct (_clustering_dic (self w)
                   !! (_active_algorithm_id (self w), _n_clusters (self w))).
Qed.

(** C8: no call on the controller removes or overwrites an entry of the
    cache: whatever calls of [update_clusters],
    [update_number_of_clusters], [get_number_of_clusters] and
    [get_classes] follow, a pair the cache maps to some labels is
    mapped to the same labels afterwards. *)
Theorem clustering_dic_entries_stay (cs : list (call num)) (w : World)
    (key : string * Z) (labels : list Z) :
  _clustering_dic (self w) !! key = Some labels →
  _clustering_dic (self (perform_all cs w)) !! key = Some labels.
Proof.
  revert w. induction cs as [|c cs IH]; intros w H; [done|].
  simpl. apply IH. by apply perform_dic.
Qed.

(** C10: with the default palette of 7 colours, [update_clusters] raises
    [IndexError] whenever the labels it works with, cached or computed,
    hold a value of 7 or more; and whatever the palette, it returns
    only when every label is below the length of the palette. *)
Theorem update_clusters_palette (d : DimFrame num) (w : World) :
  (_label_colors (self w) = DEFAULT_LABEL_COLORS →
   Exists (λ i, 7 ≤ i)%Z (labels_of d w) →
   ∃ w', update_clusters d w = Raises IndexError w') ∧
  (∀ w', update_clusters d w = Returns tt w' →
         Forall (λ i, i < Z.of_nat (length (_label_colors (self w))))%Z
                (labels_of d w)).
Proof.
  destruct (update_clusters_labels_of d w) as (w1 & -> & Hp).
  unfold assign_colors, bind, gets. rewrite Hp. split.
  - intros Hd Hex. rewrite Hd.
    rewrite list_comprehension_getitem_Raises; [eauto|done].
  - intros w'.
    destruct (list_comprehension_getitem _ _ w1) as [colors w2| |] eqn:E;
      [|discriminate..].
    intros _. apply list_comprehension_getitem_Returns in E as [_ HF].
    eapply Forall_impl; [exact HF|]. simpl. lia.
Qed.

End Facts.

End ClusterControllerSpec.

(** ** pandas tables *)

Section PandasFacts.
Context {num : Type}.

Lemma keep_empty {A} (l : list (label * A)) : keep ∅ l = l.
Proof.
  unfold keep. induction l as [|e l IH]; [done|].
  rewrite filter_cons_True by set_solver. by rewrite IH.
Qed.

Lemma keep_labels {A} (labels : gset label) (l : list (label * A)) (a : label) :
  a ∈ (keep labels l).*1 ↔ a ∈ l.*1 ∧ a ∉ labels.
Proof.
  unfold keep. rewrite !list_elem_of_fmap. split.
  - intros (e & -> & He). apply list_elem_of_filter in He as [Hn He]. eauto.
  - intros [(e & -> & He) Hn]. exists e. split; [done|].
    by apply list_elem_of_filter.
Qed.

Lemma labels_on_axis_true (labels : gset label) (axis : list label) :
  labels_on_axis labels axis = true ↔ ∀ a, a ∈ labels → a ∈ axis.
Proof. unfold labels_on_axis. by rewrite bool_decide_eq_true. Qed.

Lemma positions_absent (a : label) (index : list label) (i : nat) :
  a ∉ index → positions a index i = [].
Proof.
  revert i. induction index as [|b index IH]; intros i Ha; [done|].
  simpl. apply not_elem_of_cons in Ha as [Hab Ha].
  destruct (decide (a = b)); [done|]. by apply IH.
Qed.

Lemma positions_once (a : label) (before after : list label) (i : nat) :
  a ∉ before → a ∉ after →
  positions a (before ++ a :: after) i = [i + length before].
Proof.
  revert i. induction before as [|b before IH]; intros i Hb Ha; simpl.
  - destruct (decide (a = a)); [|done].
    rewrite positions_absent by done. f_equal. lia.
  - apply not_elem_of_cons in Hb as [Hab Hb].
    destruct (decide (a = b)); [done|].
    rewrite IH by done. f_equal. lia.
Qed.

Lemma loc_slice_once (a : label) (before after : list label) :
  a ∉ before → a ∉ after →
  loc_slice a (before ++ a :: after) = Some (length before, S (length before)).
Proof.
  intros Hb Ha. unfold loc_slice. rewrite positions_once by done. simpl.
  destruct (decide _) as [|Hn]; [done|]. exfalso. apply Hn. lia.
Qed.

Lemma loc_slice_absent (a : label) (index : list label) :
  a ∉ index → is_monotonic index = true → loc_slice a index = Some (0, 0).
Proof.
  intros Ha Hm. unfold loc_slice. rewrite positions_absent by done.
  by rewrite Hm.
Qed.

Lemma imap_unchanged {A} (f : nat → A → A) (l : list A) :
  (∀ i x, l !! i = Some x → f i x = x) → imap f l = l.
Proof.
  revert f. induction l as [|x l IH]; intros f H; [done|].
  simpl. rewrite (H 0 x) by done. f_equal.
  apply IH. intros i y Hi. by apply (H (S i)).
Qed.

Lemma map_range_once {A} (g : A → A) (before after : list A) (r : A) :
  map_range g (length before) (S (length before)) (before ++ r :: after)
  = before ++ g r :: after.
Proof.
  unfold map_range. rewrite imap_app. f_equal.
  - apply imap_unchanged. intros i x Hi. apply lookup_lt_Some in Hi.
    rewrite bool_decide_eq_false_2; [done|lia].
  - simpl. rewrite bool_decide_eq_true_2 by lia. f_equal.
    apply imap_unchanged. intros i x _. simpl.
    rewrite bool_decide_eq_false_2; [done|lia].
Qed.

Lemma map_range_empty {A} (g : A → A) (l : list A) : map_range g 0 0 l = l.
Proof.
  apply imap_unchanged. intros i x _.
  rewrite bool_decide_eq_false_2; [done|lia].
Qed.

Lemma xy_loc_slice_set_once (g : label * (num * num) → label * (num * num))
    (a : label) (before after : list (label * (num * num)))
    (r : label * (num * num)) :
  r.1 = a → a ∉ before.*1 → a ∉ after.*1 →
  xy_loc_slice_set g a {| xy_rows := before ++ r :: after |}
  = Some {| xy_rows := before ++ g r :: after |}.
Proof.
  intros Hr Hb Ha. unfold xy_loc_slice_set, xy_index. simpl.
  rewrite fmap_app, fmap_cons, Hr.
  rewrite loc_slice_once by done. rewrite length_fmap.
  by rewrite map_range_once.
Qed.

Lemma xy_loc_slice_set_absent (g : label * (num * num) → label * (num * num))
    (a : label) (f : XYFrame num) :
  a ∉ xy_index f → is_monotonic (xy_index f) = true →
  xy_loc_slice_set g a f = Some f.
Proof.
  intros Ha Hm. unfold xy_loc_slice_set.
  rewrite loc_slice_absent by done. rewrite map_range_empty. by destruct f.
Qed.

End PandasFacts.

(** ** MapperController *)

Module MapperControllerSpec.
Import MapperController.

Section Facts.
Context {num : Type}.
Variable algorithm_dict : string → DimFrame num → XYFrame num → XYFrame num.

Abbreviation World := (World num).
Abbreviation execute_mapping := (execute_mapping algorithm_dict).
Abbreviation compute_mapping := (compute_mapping algorithm_dict).
Abbreviation execute_active_algorithm := (execute_active_algorithm algorithm_dict).

Lemma get_vectors_run (w : World) (fv : XYFrame num) :
  frames w !! _vectors_df (self w) = Some fv →
  get_vectors w =
    let r := fresh (dom (frames w)) in
    match filtered_vectors (_ignored_axis_ids (self w)) fv with
    | Some f' => Returns r (with_frames (<[r := f']> (frames w)) w)
    | None => Raises KeyError (with_frames (<[r := fv]> (frames w)) w)
    end.
Proof.
  intros H.
  unfold get_vectors, attr, bind, gets, frame_copy, read_frame, new_frame,
    filtered_vectors, bind.
  rewrite H. simpl. case_bool_decide; simpl; [|done].
  unfold frame_drop_inplace, bind, read_frame. simpl.
  rewrite lookup_insert_eq.
  destruct (xy_drop_rows _ fv); simpl; [|done].
  unfold with_frames. simpl. by rewrite insert_insert_eq.
Qed.

Lemma get_dimension_values_run (w : World) (td : DimFrame num) :
  tables w !! _dimension_values_df (self w) = Some td →
  get_dimension_values w =
    let r := fresh (dom (tables w)) in
    match filtered_dimension_values (_ignored_axis_ids (self w)) td with
    | Some t' => Returns r (with_tables (<[r := t']> (tables w)) w)
    | None => Raises KeyError (with_tables (<[r := td]> (tables w)) w)
    end.
Proof.
  intros H.
  unfold get_dimension_values, attr, bind, gets, table_copy, read_table,
    new_table, filtered_dimension_values, bind.
  rewrite H. simpl. case_bool_decide; simpl; [|done].
  unfold table_drop_inplace, bind, read_table. simpl.
  rewrite lookup_insert_eq.
  destruct (df_drop_columns _ td); simpl; [|done].
  unfold with_tables. simpl. by rewrite insert_insert_eq.
Qed.

Lemma get_vectors_Stuck (w : World) :
  frames w !! _vectors_df (self w) = None → get_vectors w = Stuck.
Proof.
  intros H. unfold get_vectors, attr, bind, gets, frame_copy, read_frame, bind.
  by rewrite H.
Qed.

Lemma get_dimension_values_Stuck (w : World) :
  tables w !! _dimension_values_df (self w) = None →
  get_dimension_values w = Stuck.
Proof.
  intros H.
  unfold get_dimension_values, attr, bind, gets, table_copy, read_table, bind.
  by rewrite H.
Qed.

Lemma fresh_insert_kept {A} (m : gmap nat A) (x : A) (r : nat) (y : A) :
  m !! r = Some y → <[fresh (dom m) := x]> m !! r = Some y.
Proof.
  intros H. rewrite lookup_insert_ne; [done|].
  intros <-. pose proof (is_fresh (dom m)) as Hf.
  apply Hf. apply elem_of_dom. eauto.
Qed.

Lemma stored_tables_kept_refl (w : World) : stored_tables_kept w w.
Proof. by repeat split. Qed.

Lemma stored_tables_kept_trans (w1 w2 w3 : World) :
  stored_tables_kept w1 w2 → stored_tables_kept w2 w3 →
  stored_tables_kept w1 w3.
Proof.
  intros (Hf & Ht & Hv & Hd) (Hf' & Ht' & Hv' & Hd').
  repeat split; [naive_solver | naive_solver | congruence | congruence].
Qed.

Lemma get_vectors_kept (w : World) :
  stored_tables_kept w (after (get_vectors w) w).
Proof.
  destruct (frames w !! _vectors_df (self w)) as [fv|] eqn:E.
  - rewrite (get_vectors_run _ _ E). cbv zeta.
    destruct (filtered_vectors _ fv); simpl;
      (repeat split; [|done..]); intros r f Hr; by apply fresh_insert_kept.
  - rewrite (get_vectors_Stuck _ E). apply stored_tables_kept_refl.
Qed.

Lemma get_dimension_values_kept (w : World) :
  stored_tables_kept w (after (get_dimension_values w) w).
Proof.
  destruct (tables w !! _dimension_values_df (self w)) as [td|] eqn:E.
  - rewrite (get_dimension_values_run _ _ E). cbv zeta.
    destruct (filtered_dimension_values _ td); simpl;
      (repeat split; [done| |done..]); intros r f Hr; by apply fresh_insert_kept.
  - rewrite (get_dimension_values_Stuck _ E). apply stored_tables_kept_refl.
Qed.

Lemma update_axis_status_kept (axis_id : label) (visible : bool) (w : World) :
  stored_tables_kept w (after (update_axis_status axis_id visible w) w).
Proof. by destruct visible. Qed.

Lemma filtered_vectors_Some (ig : gset label) (fv : XYFrame num) :
  (∀ b, b ∈ ig → b ∈ xy_index fv) →
  filtered_vectors ig fv = Some {| xy_rows := keep ig (xy_rows fv) |}.
Proof.
  intros H. unfold filtered_vectors, xy_drop_rows.
  case_bool_decide as Hig.
  - by rewrite (proj2 (labels_on_axis_true ig (xy_index fv)) H).
  - subst ig. rewrite keep_empty. by destruct fv.
Qed.

Lemma filtered_dimension_values_Some (ig : gset label) (td : DimFrame num) :
  (∀ b, b ∈ ig → b ∈ df_column_labels td) →
  filtered_dimension_values ig td
  = Some {| df_index := df_index td; df_columns := keep ig (df_columns td) |}.
Proof.
  intros H. unfold filtered_dimension_values, df_drop_columns.
  case_bool_decide as Hig.
  - by rewrite (proj2 (labels_on_axis_true ig (df_column_labels td)) H).
  - subst ig. rewrite keep_empty. by destruct td.
Qed.

Lemma fresh_insert_ne {A} (m : gmap nat A) (r : nat) (y : A) :
  m !! r = Some y → fresh (dom m) ≠ r.
Proof.
  intros H <-. apply (is_fresh (dom m)). apply elem_of_dom. eauto.
Qed.

(** C3 (as amended): for an axis [a] of both tables, in a state whose
    other hidden axes are axes of both tables too: once [a] is hidden,
    the copies [get_vectors] and [get_dimension_values] return have no
    row, no column [a]; once it is shown again, they return the tables
    without the axes still hidden, which are the stored tables
    themselves when no other axis is hidden; the copies are new
    objects, and neither hiding, showing nor the getters change a stored
    table. *)
Theorem hide_then_show_spec (a : label) (w : World)
    (fv : XYFrame num) (td : DimFrame num) :
  frames w !! _vectors_df (self w) = Some fv →
  tables w !! _dimension_values_df (self w) = Some td →
  a ∈ xy_index fv → a ∈ df_column_labels td →
  (∀ b, b ∈ _ignored_axis_ids (self w) →
        b ∈ xy_index fv ∧ b ∈ df_column_labels td) →
  let ig := _ignored_axis_ids (self w) in
  (∃ vh dh vs ds w' fh th fs ts,
     hide_then_show a w = Returns (vh, dh, (vs, ds)) w' ∧
     (frames w' !! vh = Some fh ∧ (a ∉ xy_index fh) ∧
      xy_rows fh = keep (ig ∪ {[a]}) (xy_rows fv)) ∧
     (tables w' !! dh = Some th ∧ (a ∉ df_column_labels th) ∧
      df_index th = df_index td ∧
      df_columns th = keep (ig ∪ {[a]}) (df_columns td)) ∧
     (frames w' !! vs = Some fs ∧
      xy_rows fs = keep (ig ∖ {[a]}) (xy_rows fv)) ∧
     (tables w' !! ds = Some ts ∧
      df_index ts = df_index td ∧
      df_columns ts = keep (ig ∖ {[a]}) (df_columns td)) ∧
     (ig ⊆ {[a]} → fs = fv ∧ ts = td) ∧
     (vh ≠ _vectors_df (self w) ∧ vs ≠ _vectors_df (self w) ∧
      dh ≠ _dimension_values_df (self w) ∧
      ds ≠ _dimension_values_df (self w)) ∧
     frames w' !! _vectors_df (self w') = Some fv ∧
     tables w' !! _dimension_values_df (self w') = Some td ∧
     stored_tables_kept w w') ∧
  (∀ (w0 : World) b visible,
     stored_tables_kept w0 (after (update_axis_status b visible w0) w0)) ∧
  (∀ w0 : World, stored_tables_kept w0 (after (get_vectors w0) w0)) ∧
  (∀ w0 : World, stored_tables_kept w0 (after (get_dimension_values w0) w0)).
Proof.
  intros Hv Hd Hav Had Hig. cbv zeta.
  remember (_ignored_axis_ids (self w)) as ig eqn:Eig.
  split; [|by auto using update_axis_status_kept, get_vectors_kept,
                         get_dimension_values_kept].
  assert (Hig1 : ∀ b, b ∈ ig ∪ {[a]} → b ∈ xy_index fv).
  { intros b [Hb| ->%elem_of_singleton]%elem_of_union; [by apply Hig|done]. }
  assert (Hig2 : ∀ b, b ∈ ig ∪ {[a]} → b ∈ df_column_labels td).
  { intros b [Hb| ->%elem_of_singleton]%elem_of_union; [by apply Hig|done]. }
  assert (Hig3 : ∀ b, b ∈ (ig ∪ {[a]}) ∖ {[a]} → b ∈ xy_index fv).
  { intros b [Hb _]%elem_of_difference. by apply Hig1. }
  assert (Hig4 : ∀ b, b ∈ (ig ∪ {[a]}) ∖ {[a]} → b ∈ df_column_labels td).
  { intros b [Hb _]%elem_of_difference. by apply Hig2. }
  assert (Heq : (ig ∪ {[a]}) ∖ {[a]} = ig ∖ {[a]}).
  { apply set_eq. intros b.
    rewrite !elem_of_difference, elem_of_union. split.
    - by intros [[Hb|Hb] Hn].
    - intros [Hb Hn]. by split; [left|]. }
  set (fh := {| xy_rows := keep (ig ∪ {[a]}) (xy_rows fv) |}).
  set (th := {| df_index := df_index td;
                df_columns := keep (ig ∪ {[a]}) (df_columns td) |}).
  set (fs := {| xy_rows := keep (ig ∖ {[a]}) (xy_rows fv) |}).
  set (ts := {| df_index := df_index td;
                df_columns := keep (ig ∖ {[a]}) (df_columns td) |}).
  set (vh := fresh (dom (frames w))).
  set (dh := fresh (dom (tables w))).
  set (vs := fresh (dom (<[vh := fh]> (frames w)))).
  set (ds := fresh (dom (<[dh := th]> (tables w)))).
  exists vh, dh, vs, ds.
  eexists. exists fh, th, fs, ts.
  split.
  { unfold hide_then_show, bind. simpl. rewrite <- Eig.
    erewrite get_vectors_run by (simpl; exact Hv). simpl.
    rewrite (filtered_vectors_Some _ _ Hig1).
    erewrite get_dimension_values_run by (simpl; exact Hd). simpl.
    rewrite (filtered_dimension_values_Some _ _ Hig2).
    erewrite get_vectors_run
      by (simpl; apply fresh_insert_kept; exact Hv). simpl.
    rewrite (filtered_vectors_Some _ _ Hig3).
    erewrite get_dimension_values_run
      by (simpl; apply fresh_insert_kept; exact Hd). simpl.
    rewrite (filtered_dimension_values_Some _ _ Hig4).
    rewrite Heq. reflexivity. }
  simpl.
  assert (Hvh : vh ≠ _vectors_df (self w)) by (by eapply fresh_insert_ne).
  assert (Hdh : dh ≠ _dimension_values_df (self w)) by (by eapply fresh_insert_ne).
  assert (Hvs : vs ≠ _vectors_df (self w)).
  { eapply fresh_insert_ne. apply fresh_insert_kept. exact Hv. }
  assert (Hds : ds ≠ _dimension_values_df (self w)).
  { eapply fresh_insert_ne. apply fresh_insert_kept. exact Hd. }
  assert (Hvhs : vs ≠ vh).
  { eapply fresh_insert_ne. apply lookup_insert_eq. }
  assert (Hdhs : ds ≠ dh).
  { eapply fresh_insert_ne. apply lookup_insert_eq. }
  assert (Hkept : ∀ {A} (m : gmap nat A) (x y z : A) r,
             m !! r = Some z →
             <[fresh (dom (<[fresh (dom m) := x]> m)) := y]>
               (<[fresh (dom m) := x]> m) !! r = Some z).
  { intros A m x y z r Hr. by do 2 apply fresh_insert_kept. }
  split_and!; try reflexivity; try assumption.
  - rewrite lookup_insert_ne by exact Hvhs. apply lookup_insert_eq.
  - unfold xy_index, fh. simpl. rewrite keep_labels.
    intros [_ Hn]. apply Hn, elem_of_union_r, elem_of_singleton. done.
  - rewrite lookup_insert_ne by exact Hdhs. apply lookup_insert_eq.
  - unfold df_column_labels, th. simpl. rewrite keep_labels.
    intros [_ Hn]. apply Hn, elem_of_union_r, elem_of_singleton. done.
  - apply lookup_insert_eq.
  - apply lookup_insert_eq.
  - intros Hsub.
    assert (ig ∖ {[a]} = ∅) as E.
    { apply set_eq. intros b. rewrite elem_of_difference.
      split; [|by intros ?%not_elem_of_empty].
      intros [Hb Hn]. exfalso. by apply Hn, Hsub. }
    unfold fs, ts. rewrite E, !keep_empty. by destruct fv, td.
  - by apply Hkept.
  - by apply Hkept.
  - split_and!; simpl; [|  |done..].
    + intros r f Hr. by apply Hkept.
    + intros r t Hr. by apply Hkept.
Qed.

Lemma execute_mapping_eq (w : World) :
  execute_mapping w =
  (mapped_points_df ⇐ compute_mapping ;;
   show_mapping mapped_points_df ;;;
   modify (λ w, with_self (set_last_mapped_points_df
                             (Some mapped_points_df) (self w)) w) ;;;
   ret mapped_points_df) w.
Proof.
  unfold MapperController.execute_mapping, MapperController.compute_mapping,
    show_mapping, attr, bind, gets. simpl.
  destruct (if bool_decide _ then _ else _) as [filtered w1| |]; [|done..].
  by destruct (MapperController.execute_active_algorithm _ _ _ _).
Qed.

Lemma execute_active_algorithm_frame (rd rv : nat) (w : World) :
  let w1 := after (execute_active_algorithm rd rv w) w in
  self w1 = self w ∧ sources w1 = sources w ∧ animated w1 = animated w.
Proof.
  unfold MapperController.execute_active_algorithm, attr, bind, gets,
    read_table, read_frame. simpl.
  destruct (tables w !! rd); [|done].
  by destruct (frames w !! rv).
Qed.

Lemma get_vectors_frame (w : World) :
  let w1 := after (get_vectors w) w in
  self w1 = self w ∧ sources w1 = sources w ∧ animated w1 = animated w ∧
  tables w1 = tables w ∧ executed w1 = executed w.
Proof.
  destruct (frames w !! _vectors_df (self w)) as [fv|] eqn:E.
  - rewrite (get_vectors_run _ _ E). cbv zeta.
    by destruct (filtered_vectors _ fv).
  - by rewrite (get_vectors_Stuck _ E).
Qed.

Lemma get_dimension_values_frame (w : World) :
  let w1 := after (get_dimension_values w) w in
  self w1 = self w ∧ sources w1 = sources w ∧ animated w1 = animated w ∧
  frames w1 = frames w ∧ executed w1 = executed w.
Proof.
  destruct (tables w !! _dimension_values_df (self w)) as [td|] eqn:E.
  - rewrite (get_dimension_values_run _ _ E). cbv zeta.
    by destruct (filtered_dimension_values _ td).
  - by rewrite (get_dimension_values_Stuck _ E).
Qed.

Lemma compute_mapping_unfold (w : World) :
  compute_mapping w =
  (filtered ⇐ (if bool_decide (_ignored_axis_ids (self w) ≠ ∅)
               then get_filtered_mapping_df
               else ret (_dimension_values_df (self w), _vectors_df (self w))) ;;
   execute_active_algorithm filtered.1 filtered.2) w.
Proof. reflexivity. Qed.

Lemma compute_mapping_frame (w : World) :
  let w1 := after (compute_mapping w) w in
  self w1 = self w ∧ sources w1 = sources w ∧ animated w1 = animated w.
Proof.
  rewrite compute_mapping_unfold. cbv zeta.
  assert (Hx : ∀ rd rv (w0 : World),
             self w0 = self w → sources w0 = sources w →
             animated w0 = animated w →
             let w1 := after (execute_active_algorithm rd rv w0) w in
             self w1 = self w ∧ sources w1 = sources w ∧
             animated w1 = animated w).
  { intros rd rv w0 H1 H2 H3.
    pose proof (execute_active_algorithm_frame rd rv w0) as H.
    cbv zeta in *.
    destruct (execute_active_algorithm rd rv w0); simpl in *;
      [| |done]; destruct H as (-> & -> & ->); done. }
  case_bool_decide; [|unfold bind, ret; by apply Hx].
  unfold get_filtered_mapping_df, bind, ret.
  pose proof (get_dimension_values_frame w) as Hd. cbv zeta in Hd.
  destruct (get_dimension_values w) as [rd w1|e w1|]; simpl in *; [| |done].
  - destruct Hd as (Hs & Hso & Ha & _).
    pose proof (get_vectors_frame w1) as Hv. cbv zeta in Hv.
    destruct (get_vectors w1) as [rv w2|e w2|]; simpl in *; [| |done].
    + destruct Hv as (Hs' & Hso' & Ha' & _).
      apply Hx; congruence.
    + destruct Hv as (Hs' & Hso' & Ha' & _). split_and!; congruence.
  - by destruct Hd as (? & ? & ? & _).
Qed.

Lemma get_vectors_Returns (w w2 : World) (rv : nat) (fv' : XYFrame num) :
  get_vectors w = Returns rv w2 → frames w2 !! rv = Some fv' →
  ∃ fv, frames w !! _vectors_df (self w) = Some fv ∧
        filtered_vectors (_ignored_axis_ids (self w)) fv = Some fv'.
Proof.
  destruct (frames w !! _vectors_df (self w)) as [fv|] eqn:E.
  - rewrite (get_vectors_run _ _ E). cbv zeta.
    destruct (filtered_vectors _ fv) as [f'|] eqn:F; [|discriminate].
    intros [= <- <-]. simpl. rewrite lookup_insert_eq. intros [= ->]. eauto.
  - by rewrite (get_vectors_Stuck _ E).
Qed.

Lemma get_dimension_values_Returns (w w1 : World) (rd : nat)
    (td' : DimFrame num) :
  get_dimension_values w = Returns rd w1 → tables w1 !! rd = Some td' →
  ∃ td, tables w !! _dimension_values_df (self w) = Some td ∧
        filtered_dimension_values (_ignored_axis_ids (self w)) td = Some td'.
Proof.
  destruct (tables w !! _dimension_values_df (self w)) as [td|] eqn:E.
  - rewrite (get_dimension_values_run _ _ E). cbv zeta.
    destruct (filtered_dimension_values _ td) as [t'|] eqn:F; [|discriminate].
    intros [= <- <-]. simpl. rewrite lookup_insert_eq. intros [= ->]. eauto.
  - by rewrite (get_dimension_values_Stuck _ E).
Qed.

Lemma compute_mapping_run (w : World) (fv fv' : XYFrame num)
    (td td' : DimFrame num) :
  frames w !! _vectors_df (self w) = Some fv →
  tables w !! _dimension_values_df (self w) = Some td →
  filtered_vectors (_ignored_axis_ids (self w)) fv = Some fv' →
  filtered_dimension_values (_ignored_axis_ids (self w)) td = Some td' →
  ∃ r w1,
    compute_mapping w = Returns r w1 ∧
    executed w1 = executed w ++ [(_active_algorithm_id (self w), td', fv')] ∧
    frames w1 !! r
    = Some (algorithm_dict (_active_algorithm_id (self w)) td' fv').
Proof.
  intros Hv Hd Hfv Hfd. rewrite compute_mapping_unfold.
  case_bool_decide as Hig.
  - unfold get_filtered_mapping_df, bind, ret.
    rewrite (get_dimension_values_run _ _ Hd). cbv zeta. rewrite Hfd.
    erewrite get_vectors_run by (simpl; exact Hv). simpl. rewrite Hfv.
    unfold MapperController.execute_active_algorithm, attr, bind, gets,
      read_table, read_frame. simpl.
    rewrite lookup_insert_eq. simpl. rewrite lookup_insert_eq. simpl.
    eexists _, _. split; [reflexivity|]. simpl.
    by rewrite lookup_insert_eq.
  - unfold filtered_vectors in Hfv. unfold filtered_dimension_values in Hfd.
    rewrite bool_decide_eq_false_2 in Hfv, Hfd by (by intros ?).
    injection Hfv as <-. injection Hfd as <-.
    unfold bind, ret. simpl.
    unfold MapperController.execute_active_algorithm, attr, bind, gets,
      read_table, read_frame. simpl.
    rewrite Hd. simpl. rewrite Hv. simpl.
    eexists _, _. split; [reflexivity|]. simpl.
    by rewrite lookup_insert_eq.
Qed.

Lemma show_mapping_animator (r a : nat) (w : World) :
  _animator (self w) = Some a →
  show_mapping r w
  = Returns tt (with_animated
                  (animated w ++ [(a, _last_mapped_points_df (self w), r)]) w).
Proof. intros H. unfold show_mapping, attr, bind, gets. by rewrite H. Qed.

Lemma show_mapping_source (r sp : nat) (w : World) (f : XYFrame num)
    (src : Source num) :
  _animator (self w) = None → _source_points (self w) = Some sp →
  frames w !! r = Some f → sources w !! sp = Some src →
  show_mapping r w
  = Returns tt (with_sources
                  (<[sp := data_setitem "y" (ColNum (xy_getitem_y f))
                             (data_setitem "x" (ColNum (xy_getitem_x f)) src)]>
                     (sources w)) w).
Proof.
  intros Ha Hs Hf Hsrc.
  unfold show_mapping, attr, bind, gets. rewrite Ha, Hs.
  unfold read_frame. rewrite Hf.
  unfold source_data_setitem, bind, read_source. rewrite Hsrc. simpl.
  rewrite lookup_insert_eq. unfold write_source, modify, with_sources. simpl.
  by rewrite insert_insert_eq.
Qed.

Lemma show_mapping_source_Returns (r sp : nat) (w w' : World) :
  _animator (self w) = None → _source_points (self w) = Some sp →
  show_mapping r w = Returns tt w' →
  ∃ f src, frames w !! r = Some f ∧ sources w !! sp = Some src.
Proof.
  intros Ha Hs.
  unfold show_mapping, attr, bind, gets. rewrite Ha, Hs.
  unfold read_frame. destruct (frames w !! r) as [f|]; [|discriminate].
  unfold source_data_setitem, bind, read_source.
  destruct (sources w !! sp) as [src|]; [|discriminate]. eauto.
Qed.

Lemma show_mapping_nothing (r : nat) (w : World) :
  _animator (self w) = None → _source_points (self w) = None →
  show_mapping r w = Returns tt w.
Proof.
  intros Ha Hs. unfold show_mapping, attr, bind, gets. by rewrite Ha, Hs.
Qed.

Lemma execute_mapping_Returns (w w' : World) (r : nat) :
  execute_mapping w = Returns r w' ↔
  ∃ w1 w2, compute_mapping w = Returns r w1 ∧
           show_mapping r w1 = Returns tt w2 ∧
           w' = with_self (set_last_mapped_points_df (Some r) (self w2)) w2.
Proof.
  rewrite execute_mapping_eq. rewrite bind_Returns. split.
  - intros (r' & w1 & Hc & H). apply bind_Returns in H as ([] & w2 & Hs & H).
    unfold bind, modify, ret in H. injection H as <- <-. eauto.
  - intros (w1 & w2 & Hc & Hs & ->). exists r, w1. split; [done|].
    apply bind_Returns. exists tt, w2. done.
Qed.

(** C6 (as amended): in every state in which [get_dimension_values] and
    [get_vectors] return, [execute_mapping] makes one call to the active
    mapping algorithm, on the contents of the tables the two getters
    return, returns the table of mapped points that call produced, and
    [get_mapped_points] returns that same table afterwards. *)
Theorem execute_mapping_spec (w w1 w2 : World) (rd rv : nat)
    (td' : DimFrame num) (fv' : XYFrame num) :
  get_dimension_values w = Returns rd w1 → tables w1 !! rd = Some td' →
  get_vectors w = Returns rv w2 → frames w2 !! rv = Some fv' →
  (_animator (self w) = None →
   ∀ sp, _source_points (self w) = Some sp → is_Some (sources w !! sp)) →
  ∃ r w',
    execute_mapping w = Returns r w' ∧
    executed w' = executed w ++ [(_active_algorithm_id (self w), td', fv')] ∧
    frames w' !! r
    = Some (algorithm_dict (_active_algorithm_id (self w)) td' fv') ∧
    get_mapped_points w' = Returns (Some r) w'.
Proof.
  intros Hgd Htd' Hgv Hfv' Hsrc.
  destruct (get_dimension_values_Returns _ _ _ _ Hgd Htd') as (td & Hd & Hfd).
  destruct (get_vectors_Returns _ _ _ _ Hgv Hfv') as (fv & Hv & Hfv).
  destruct (compute_mapping_run _ _ _ _ _ Hv Hd Hfv Hfd)
    as (r & wc & Hc & Hex & Hr).
  pose proof (compute_mapping_frame w) as Hfr. cbv zeta in Hfr.
  rewrite Hc in Hfr. simpl in Hfr. destruct Hfr as (Hself & Hso & Han).
  assert (∃ ws, show_mapping r wc = Returns tt ws ∧
                executed ws = executed wc ∧ frames ws = frames wc)
    as (ws & Hs & Hexs & Hfs).
  { destruct (_animator (self w)) as [a|] eqn:Ea.
    - eexists. rewrite (show_mapping_animator r a) by congruence. done.
    - destruct (_source_points (self w)) as [sp|] eqn:Esp.
      + destruct (Hsrc eq_refl sp eq_refl) as [src Hsp].
        eexists.
        erewrite (show_mapping_source r sp wc _ src);
          [done | by rewrite Hself | by rewrite Hself | exact Hr
          | by rewrite Hso].
      + eexists. rewrite show_mapping_nothing by congruence. done. }
  exists r. eexists. split.
  { apply execute_mapping_Returns. eauto. }
  simpl. rewrite Hexs, Hfs. done.
Qed.

(** C7 (as amended): in every state in which [get_dimension_values] and
    [get_vectors] return, [execute_mapping] returns and, when an animator
    is configured, has handed it the previous and the new mapped points,
    the store of point sources being as it was; when no animator is
    configured but a point source is, it has written the [x] and the [y]
    column of the new mapped points into the source, and called no
    animator. *)
Theorem execute_mapping_animator_or_source (w w1 w2 : World) (rd rv : nat) :
  get_dimension_values w = Returns rd w1 → get_vectors w = Returns rv w2 →
  (∀ a, _animator (self w) = Some a →
     ∃ r w',
       execute_mapping w = Returns r w' ∧
       animated w' = animated w ++ [(a, _last_mapped_points_df (self w), r)] ∧
       sources w' = sources w) ∧
  (∀ sp src,
     _animator (self w) = None → _source_points (self w) = Some sp →
     sources w !! sp = Some src →
     ∃ r w' f,
       execute_mapping w = Returns r w' ∧ frames w' !! r = Some f ∧
       sources w'
       = <[sp := data_setitem "y" (ColNum (xy_getitem_y f))
                   (data_setitem "x" (ColNum (xy_getitem_x f)) src)]>
           (sources w) ∧
       animated w' = animated w).
Proof.
  intros Hgd Hgv.
  destruct (tables w !! _dimension_values_df (self w)) as [td|] eqn:Hd;
    [|by rewrite (get_dimension_values_Stuck _ Hd) in Hgd].
  rewrite (get_dimension_values_run _ _ Hd) in Hgd. cbv zeta in Hgd.
  destruct (filtered_dimension_values _ td) as [td'|] eqn:Hfd; [|discriminate].
  destruct (frames w !! _vectors_df (self w)) as [fv|] eqn:Hv;
    [|by rewrite (get_vectors_Stuck _ Hv) in Hgv].
  rewrite (get_vectors_run _ _ Hv) in Hgv. cbv zeta in Hgv.
  destruct (filtered_vectors _ fv) as [fv'|] eqn:Hfv; [|discriminate].
  clear Hgd Hgv.
  destruct (compute_mapping_run _ _ _ _ _ Hv Hd Hfv Hfd)
    as (r & wc & Hc & Hex & Hr).
  pose proof (compute_mapping_frame w) as Hfr. cbv zeta in Hfr.
  rewrite Hc in Hfr. simpl in Hfr. destruct Hfr as (Hself & Hso & Han).
  split.
  - intros a Ha. exists r. eexists. split.
    + apply execute_mapping_Returns. eexists wc, _. split; [exact Hc|].
      split; [|reflexivity].
      apply show_mapping_animator. by rewrite Hself.
    + simpl. by rewrite Han, Hself, Hso.
  - intros sp src Ha Hsp Hsrc. exists r. eexists. eexists. split.
    + apply execute_mapping_Returns. eexists wc, _. split; [exact Hc|].
      split; [|reflexivity].
      apply show_mapping_source;
        [by rewrite Hself | by rewrite Hself | exact Hr | by rewrite Hso].
    + simpl. by rewrite Hso, Han.
Qed.

(** C9: when [axis_id] labels exactly one row of the vectors table,
    [update_single_vector axis_id x1 y1] makes that row [(x1, y1)] and
    leaves the other rows, the dimension values, the point sources and
    the controller, its set of hidden axes included, as they were.
    The id is not checked beforehand: for one that labels no row of a
    sorted index the call returns as well, and the table is as it
    was. *)
Theorem update_single_vector_spec (axis_id : label) (x1 y1 x0 y0 : num)
    (w : World) (before after : list (label * (num * num))) :
  frames w !! _vectors_df (self w)
  = Some {| xy_rows := before ++ (axis_id, (x0, y0)) :: after |} →
  axis_id ∉ before.*1 → axis_id ∉ after.*1 →
  (∃ w', update_single_vector axis_id x1 y1 w = Returns tt w' ∧
         frames w'
         = <[_vectors_df (self w) :=
               {| xy_rows := before ++ (axis_id, (x1, y1)) :: after |}]>
             (frames w) ∧
         tables w' = tables w ∧ sources w' = sources w ∧ self w' = self w) ∧
  (∀ b, b ∉ (before ++ (axis_id, (x0, y0)) :: after).*1 →
        is_monotonic (before ++ (axis_id, (x0, y0)) :: after).*1 = true →
        ∃ w', update_single_vector b x1 y1 w = Returns tt w' ∧
              frames w' !! _vectors_df (self w)
              = frames w !! _vectors_df (self w)).
Proof.
  intros Hv Hb Ha. split.
  - unfold update_single_vector, attr, bind, gets, frame_loc_slice_set,
      bind, read_frame. rewrite Hv.
    rewrite (xy_loc_slice_set_once (set_x x1)) by done.
    unfold write_frame, modify. simpl. rewrite lookup_insert_eq.
    rewrite (xy_loc_slice_set_once (set_y y1)) by done.
    eexists. split; [reflexivity|]. simpl.
    by rewrite insert_insert_eq.
  - intros b Hbn Hm.
    unfold update_single_vector, attr, bind, gets, frame_loc_slice_set,
      bind, read_frame. rewrite Hv.
    rewrite (xy_loc_slice_set_absent (set_x x1)) by done.
    unfold write_frame, modify. simpl. rewrite lookup_insert_eq.
    rewrite (xy_loc_slice_set_absent (set_y y1)) by done.
    eexists. split; [reflexivity|]. simpl.
    by rewrite lookup_insert_eq.
Qed.

End Facts.

End MapperControllerSpec.

(** ** AxisGenerator *)

Module AxisGeneratorSpec.
Import AxisGenerator.

Lemma randint_range (a b : Z) (g : Random) :
  (a ≤ b)%Z → (a ≤ (randint a b g).1 ≤ b)%Z.
Proof.
  intros H. unfold randint. simpl.
  pose proof (Z.mod_pos_bound (Z.of_nat (draws g (cursor g))) (b - a + 1)).
  lia.
Qed.

Lemma radii_range (k : nat) (g : Random) :
  length (radii k g).1 = k ∧ Forall (λ r, 1 ≤ r ≤ 9)%Z (radii k g).1.
Proof.
  revert g. induction k as [|k IH]; intros g; [by split|].
  cbn [radii]. pose proof (randint_range 1 9 g) as Hr.
  destruct (randint 1 9 g) as [r g1]. specialize (IH g1).
  destruct (radii k g1) as [rs g2]. cbn [fst length] in *.
  destruct IH as [Hl HF]. split; [by f_equal|].
  constructor; [lia|done].
Qed.

Section Floats.
Variable float : Type.
Variable of_int : Z → float.
Variables fadd fmul fdiv : float → float → float.
Variables radians cos sin fabs : float → float.
Variable flt : float → float → bool.

Abbreviation star_segment :=
  (star_segment float of_int fadd fmul fdiv radians cos sin fabs flt).
Abbreviation subdivide_loop :=
  (subdivide_loop float of_int fadd fmul fdiv radians cos sin fabs flt).
Abbreviation generate_star_axis :=
  (generate_star_axis float of_int fadd fmul fdiv radians cos sin fabs flt).

Lemma subdivide_loop_segments (n_lines : nat) (range : list nat)
    (segment_list : list (list (number float))) (g : Random) :
  subdivide_loop (Int 0, Int 0) n_lines range segment_list g
  = (segment_list
       ++ zip_with (star_segment n_lines) range (radii (length range) g).1,
     (radii (length range) g).2).
Proof.
  revert segment_list g.
  induction range as [|i range IH]; intros segment_list g;
    cbn [AxisGenerator.subdivide_loop radii length].
  - by rewrite app_nil_r.
  - unfold segment_at.
    destruct (randint 1 9 g) as [r g1]. rewrite IH.
    destruct (radii (length range) g1) as [rs g2]. simpl.
    by rewrite <- app_assoc.
Qed.

(** C4: for [N] labels [generate_star_axis] builds [N] segments, segment
    [i] running from the centre [(0, 0)] to the point at [i * (360/N)]
    degrees and a random distance in [1 .. 9], with the labels as row
    names; but it prints that table and returns [None], for
    [["a"; "b"; "c"; "d"]] as for any other list of labels. *)
Theorem generate_star_axis_prints (axis_labels : list string) (p : Process float) :
  ∃ (rs : list Z) (g : Random),
    length rs = length axis_labels ∧
    Forall (λ r, 1 ≤ r ≤ 9)%Z rs ∧
    generate_star_axis axis_labels p
    = Returns tt
        {| rng := g;
           stdout := stdout p ++
             [{| index := axis_labels;
                 rows := zip_with (star_segment (length axis_labels))
                           (seq 0 (length axis_labels)) rs |}] |}.
Proof.
  destruct (radii_range (length axis_labels) (rng p)) as [Hl HF].
  exists (radii (length axis_labels) (rng p)).1,
         (radii (length axis_labels) (rng p)).2.
  split; [done|]. split; [done|].
  unfold AxisGenerator.generate_star_axis, _subdivide_circle.
  rewrite subdivide_loop_segments. simpl. by rewrite length_seq.
Qed.

End Floats.

End AxisGeneratorSpec.

(** ** The session, on the cluster controller *)

Module ClusterSession.
Import ClusterController ClusterControllerSpec Session.

Lemma update_number_of_clusters_spec_witness :
  (∃ w', update_number_of_clusters 2 cluster_start = Raises ValueError w') ∧
  (∃ w', update_number_of_clusters 3 cluster_start = Returns tt w' ∧
         _n_clusters (self w') = 3%Z).
Proof.
  split.
  - apply (proj1 (proj1 (update_number_of_clusters_spec 2 cluster_start))). lia.
  - apply (proj1 (proj2 (update_number_of_clusters_spec 3 cluster_start))). lia.
Defined.

Lemma update_clusters_cache_hit_witness :
  _clustering_dic (self cluster_once) !! pair_key cluster_once
  = Some [0; 1; 2; 3]%Z ∧
  update_clusters clustering_dict eight_samples cluster_once
  = assign_colors [0; 1; 2; 3]%Z eight_samples cluster_once ∧
  executed (after (update_clusters clustering_dict eight_samples cluster_once)
                  cluster_once)
  = executed cluster_once.
Proof.
  assert (H : _clustering_dic (self cluster_once) !! pair_key cluster_once
              = Some [0; 1; 2; 3]%Z) by (vm_compute; reflexivity).
  split; [exact H|].
  exact (proj1 (update_clusters_cache_hit clustering_dict eight_samples samples
                  cluster_once) _ H).
Defined.

Lemma get_classes_spec_witness :
  get_classes cluster_start = Raises KeyError cluster_start ∧
  get_classes cluster_once = Returns [0; 1; 2; 3]%Z cluster_once.
Proof.
  split.
  - apply (proj1 (proj1 (get_classes_spec cluster_start))).
    vm_compute. reflexivity.
  - apply (proj1 (proj2 (get_classes_spec cluster_once))).
    vm_compute. reflexivity.
Defined.

Lemma clustering_dic_entries_stay_witness :
  _clustering_dic
    (self (perform_all clustering_dict
             [UpdateNumberOfClusters 5; UpdateClusters eight_samples;
              GetClasses; UpdateNumberOfClusters 2; UpdateNumberOfClusters 4;
              UpdateClusters eight_samples; GetNumberOfClusters]
             cluster_once))
  !! ("dummy", 4%Z) = Some [0; 1; 2; 3]%Z.
Proof.
  apply clustering_dic_entries_stay. vm_compute. reflexivity.
Defined.

Lemma update_clusters_palette_witness :
  (∃ w', update_clusters clustering_dict eight_samples cluster_eight
         = Raises IndexError w') ∧
  Forall (λ i, i < 7)%Z (labels_of clustering_dict samples cluster_start).
Proof.
  split.
  - apply (proj1 (update_clusters_palette clustering_dict eight_samples
                    cluster_eight)).
    + reflexivity.
    + apply Exists_exists. exists 7%Z. split; [|lia].
      apply (bool_decide_unpack _). vm_compute. exact I.
  - apply (proj2 (update_clusters_palette clustering_dict samples cluster_start)
             cluster_once).
    vm_compute. reflexivity.
Defined.

End ClusterSession.

(** ** The session, on the mapper controller *)

Module MapperSession.
Import MapperController MapperControllerSpec Session.

Lemma hide_then_show_spec_witness :
  ∃ vh dh vs ds w',
    hide_then_show "a" mapper_start = Returns (vh, dh, (vs, ds)) w' ∧
    frames w' !! vs = Some vectors ∧ tables w' !! ds = Some samples.
Proof.
  destruct (hide_then_show_spec "a" mapper_start vectors samples)
    as [(vh & dh & vs & ds & w' & fh & th & fs & ts & Hrun & _ & _
         & (Hfs & _) & (Hts & _) & Hall & _) _].
  - vm_compute. reflexivity.
  - vm_compute. reflexivity.
  - apply (bool_decide_unpack _). vm_compute. exact I.
  - apply (bool_decide_unpack _). vm_compute. exact I.
  - intros b Hb. by apply not_elem_of_empty in Hb.
  - destruct Hall as [<- <-].
    + intros b Hb. by apply not_elem_of_empty in Hb.
    + by exists vh, dh, vs, ds, w'.
Defined.

(** With [b] hidden beforehand, hiding and showing [a] does not bring the
    whole tables back: what the getters return then differs from the
    stored tables. *)
Lemma hide_then_show_other_axis_hidden :
  "a" ∈ xy_index vectors ∧ "a" ∈ df_column_labels samples ∧
  frames mapper_b_hidden !! _vectors_df (self mapper_b_hidden) = Some vectors ∧
  tables mapper_b_hidden !! _dimension_values_df (self mapper_b_hidden)
  = Some samples ∧
  match hide_then_show "a" mapper_b_hidden with
  | Returns (_, _, (vs, ds)) w' =>
      frames w' !! vs ≠ Some vectors ∧ tables w' !! ds ≠ Some samples
  | _ => False
  end.
Proof.
  split; [apply (bool_decide_unpack _); vm_compute; exact I|].
  split; [apply (bool_decide_unpack _); vm_compute; exact I|].
  split; [vm_compute; reflexivity|].
  split; [vm_compute; reflexivity|].
  vm_compute. split; discriminate.
Qed.

Lemma execute_mapping_spec_witness :
  ∃ r w',
    execute_mapping mapping_dict mapper_b_hidden = Returns r w' ∧
    executed w'
    = [("dummy",
        {| df_index := ["p0"; "p1"; "p2"; "p3"];
           df_columns := [("a", [1; 0; 2; 5]%Z); ("c", [3; 3; 0; 1]%Z)] |},
        {| xy_rows := [("a", (4, 0)%Z); ("c", (-3, -3)%Z)] |})] ∧
    get_mapped_points w' = Returns (Some r) w'.
Proof.
  destruct (execute_mapping_spec mapping_dict mapper_b_hidden
              (after (get_dimension_values mapper_b_hidden) mapper_b_hidden)
              (after (get_vectors mapper_b_hidden) mapper_b_hidden)
              1 1
              {| df_index := ["p0"; "p1"; "p2"; "p3"];
                 df_columns := [("a", [1; 0; 2; 5]%Z); ("c", [3; 3; 0; 1]%Z)] |}
              {| xy_rows := [("a", (4, 0)%Z); ("c", (-3, -3)%Z)] |})
    as (r & w' & Hrun & Hex & _ & Hlast).
  - vm_compute. reflexivity.
  - vm_compute. reflexivity.
  - vm_compute. reflexivity.
  - vm_compute. reflexivity.
  - intros _ sp [= <-]. exists {| data := ∅ |}. vm_compute. reflexivity.
  - by exists r, w'.
Defined.

(** With [zz] hidden, which is no axis of the tables, [execute_mapping]
    raises and no mapping algorithm has been called. *)
Lemma execute_mapping_unknown_axis_hidden :
  match execute_mapping mapping_dict mapper_zz_hidden with
  | Raises KeyError w' => executed w' = []
  | _ => False
  end.
Proof. vm_compute. reflexivity. Qed.

Lemma execute_mapping_animator_or_source_witness :
  (∃ r w',
     execute_mapping mapping_dict mapper_animated = Returns r w' ∧
     animated w' = [(7, None, r)] ∧ sources w' = sources mapper_animated) ∧
  (∃ r w' f,
     execute_mapping mapping_dict mapper_b_hidden = Returns r w' ∧
     frames w' !! r = Some f ∧
     sources w'
     = {[ 0 := data_setitem "y" (ColNum (xy_getitem_y f))
                 (data_setitem "x" (ColNum (xy_getitem_x f)) {| data := ∅ |}) ]}).
Proof.
  split.
  - destruct (proj1 (execute_mapping_animator_or_source mapping_dict
                       mapper_animated
                       (after (get_dimension_values mapper_animated) mapper_animated)
                       (after (get_vectors mapper_animated) mapper_animated)
                       1 1 eq_refl eq_refl) 7 eq_refl)
      as (r & w' & Hrun & Han & Hso).
    by exists r, w'.
  - destruct (proj2 (execute_mapping_animator_or_source mapping_dict
                       mapper_b_hidden
                       (after (get_dimension_values mapper_b_hidden) mapper_b_hidden)
                       (after (get_vectors mapper_b_hidden) mapper_b_hidden)
                       1 1 eq_refl eq_refl)
                0 {| data := ∅ |} eq_refl eq_refl eq_refl)
      as (r & w' & f & Hrun & Hf & Hso & _).
    exists r, w', f. split; [exact Hrun|]. split; [exact Hf|].
    rewrite Hso. vm_compute. reflexivity.
Defined.

(** With the animator 7 configured and [zz] hidden, which is no axis of
    the tables, [execute_mapping] raises and the animator has not been
    called. *)
Lemma execute_mapping_animator_not_called :
  _animator (self mapper_animated_zz_hidden) = Some 7 ∧
  match execute_mapping mapping_dict mapper_animated_zz_hidden with
  | Raises KeyError w' => animated w' = []
  | _ => False
  end.
Proof. split; [reflexivity|]. vm_compute. reflexivity. Qed.

Lemma update_single_vector_spec_witness :
  ∃ w', update_single_vector "b" 9%Z 9%Z mapper_start = Returns tt w' ∧
        frames w' !! 0
        = Some {| xy_rows := [("a", (4, 0)%Z); ("b", (9, 9)%Z);
                              ("c", (-3, -3)%Z)] |} ∧
        tables w' = tables mapper_start ∧ self w' = self mapper_start.
Proof.
  destruct (update_single_vector_spec "b" 9%Z 9%Z 0%Z 4%Z mapper_start
              [("a", (4, 0)%Z)] [("c", (-3, -3)%Z)])
    as [(w' & Hrun & Hfr & Htb & _ & Hself) _].
  - vm_compute. reflexivity.
  - apply (bool_decide_unpack _). vm_compute. exact I.
  - apply (bool_decide_unpack _). vm_compute. exact I.
  - exists w'. split; [exact Hrun|]. split; [|by split].
    rewrite Hfr. apply lookup_insert_eq.
Defined.

End MapperSession.

(** * More of the code *)

(** ** ClusterController: construction, cache and colours *)

Module ClusterControllerMore.
Import ClusterController ClusterControllerSpec Session.

Section Facts.
Context {num : Type}.
Variable algorithm_dict : string → DimFrame num → Z → list Z.

Abbreviation World := (World num).
Abbreviation update_clusters := (update_clusters algorithm_dict).
Abbreviation perform_all := (perform_all algorithm_dict).
Abbreviation perform := (perform algorithm_dict).
Abbreviation labels_of := (labels_of algorithm_dict).
Abbreviation computed := (computed algorithm_dict).

Lemma update_clusters_after (d : DimFrame num) (w : World) :
  ∃ w1, update_clusters d w = assign_colors (labels_of d w) d w1 ∧
        after (update_clusters d w) w = after (assign_colors (labels_of d w) d w1) w1 ∧
        _active_algorithm_id (self w1) = _active_algorithm_id (self w) ∧
        _label_colors (self w1) = _label_colors (self w) ∧
        _n_clusters (self w1) = _n_clusters (self w) ∧
        _source (self w1) = _source (self w).
Proof.
  destruct (_clustering_dic (self w) !! pair_key w) as [labels|] eqn:E.
  - exists w. rewrite (update_clusters_hit _ _ _ _ E).
    unfold ClusterController.labels_of. rewrite E. done.
  - exists (computed d w). rewrite (update_clusters_miss _ _ _ E).
    split; [done|]. split; [|done].
    pose proof (assign_colors_not_Stuck (labels_of d w) d (computed d w)).
    by destruct (assign_colors _ _ _).
Qed.

Lemma perform_fields (c : call num) (w : World) :
  _label_colors (self (perform c w)) = _label_colors (self w) ∧
  _active_algorithm_id (self (perform c w)) = _active_algorithm_id (self w).
Proof.
  destruct c as [d|n| |]; simpl.
  - destruct (update_clusters_after d w) as (w1 & _ & -> & Ha & Hl & _).
    destruct (assign_colors_frame (labels_of d w) d w1) as (Ha' & _ & Hl' & _).
    split; congruence.
  - unfold update_number_of_clusters, raise, modify. by case_bool_decide.
  - done.
  - unfold get_classes, get_active_algorithm_id, bind, gets, ret, raise.
    by destruct (_clustering_dic (self w)
                   !! (_active_algorithm_id (self w), _n_clusters (self w))).
Qed.

(** X1: the palette is chosen once, at construction: the given one, or the
    default of 7 colours when none or an empty one is given; no call
    changes it, nor the active algorithm, so it is never empty. *)
Theorem palette_is_fixed_at_construction (DUMMY_ID : string)
    (algorithm_id : option string) (source : option (Source num))
    (label_colors : option (list string)) (n_clusters : Z)
    (cs : list (call num)) :
  let w := perform_all cs (init DUMMY_ID algorithm_id source label_colors n_clusters) in
  _label_colors (self w)
  = match label_colors with
    | Some (c :: colors) => c :: colors
    | _ => DEFAULT_LABEL_COLORS
    end ∧
  _label_colors (self w) ≠ [] ∧
  _active_algorithm_id (self w) = default DUMMY_ID algorithm_id.
Proof.
  cbv zeta.
  assert (H : ∀ (cs : list (call num)) (w0 : World),
             _label_colors (self (perform_all cs w0)) = _label_colors (self w0) ∧
             _active_algorithm_id (self (perform_all cs w0))
             = _active_algorithm_id (self w0)).
  { clear. intros cs. induction cs as [|c cs IH]; intros w0; [done|].
    simpl. destruct (IH (perform c w0)) as [-> ->]. apply perform_fields. }
  destruct (H cs (init DUMMY_ID algorithm_id source label_colors n_clusters))
    as [-> ->].
  simpl. split; [done|]. split; [|done].
  by destruct label_colors as [[|c colors]|].
Qed.

(** X2: a cluster count of 3 or more stays one: whatever calls follow,
    accepted or refused, the stored count is never below 3. *)
Theorem number_of_clusters_stays_valid (cs : list (call num)) (w : World) :
  (3 ≤ _n_clusters (self w))%Z →
  (3 ≤ _n_clusters (self (perform_all cs w)))%Z.
Proof.
  revert w. induction cs as [|c cs IH]; intros w H; [done|].
  simpl. apply IH. destruct c as [d|n| |]; simpl.
  - destruct (update_clusters_after d w) as (w1 & _ & -> & _ & _ & Hn & _).
    destruct (assign_colors_frame (labels_of d w) d w1) as (_ & _ & _ & Hn' & _).
    congruence.
  - unfold update_number_of_clusters, raise, modify.
    case_bool_decide; simpl; lia.
  - done.
  - unfold get_classes, get_active_algorithm_id, bind, gets, ret, raise.
    by destruct (_clustering_dic (self w)
                   !! (_active_algorithm_id (self w), _n_clusters (self w))).
Qed.

(** X3: after [update_clusters], whether it returned or raised while
    assigning the colours, [get_classes] returns the labels that call
    worked with, and changes nothing. *)
Theorem get_classes_after_update_clusters (d : DimFrame num) (w : World) :
  let w' := after (update_clusters d w) w in
  get_classes w' = Returns (labels_of d w) w'.
Proof.
  cbv zeta. destruct (update_clusters_dic algorithm_dict d w) as (Hk & Hl & _).
  unfold get_classes, get_active_algorithm_id, bind, gets, ret.
  unfold pair_key in Hk, Hl. injection Hk as -> ->. by rewrite Hl.
Qed.

(** X4: when the cache has no entry for the current pair, [update_clusters]
    calls the active algorithm once, on the data it was given and with
    the current cluster count, and caches what it yields, also when the
    colours cannot be assigned afterwards. *)
Theorem update_clusters_miss_calls_once (d : DimFrame num) (w : World) :
  _clustering_dic (self w) !! pair_key w = None →
  let w' := after (update_clusters d w) w in
  executed w'
  = executed w ++ [(_active_algorithm_id (self w), d, _n_clusters (self w))] ∧
  _clustering_dic (self w')
  = <[pair_key w := algorithm_dict (_active_algorithm_id (self w)) d
                      (_n_clusters (self w))]> (_clustering_dic (self w)).
Proof.
  intros H. cbv zeta. rewrite (update_clusters_miss _ _ _ H).
  pose proof (assign_colors_frame (labels_of d w) d (computed d w))
    as (_ & Hd & _ & _ & He).
  pose proof (assign_colors_not_Stuck (labels_of d w) d (computed d w)) as HS.
  assert (Hw : after (assign_colors (labels_of d w) d (computed d w)) w
               = after (assign_colors (labels_of d w) d (computed d w))
                       (computed d w)).
  { by destruct (assign_colors _ _ _). }
  rewrite Hw, He, Hd. simpl. unfold ClusterController.labels_of. by rewrite H.
Qed.

(** X5: with a source, labels that all index the palette, and as many
    labels as the data has rows, [update_clusters] returns and the
    [color] column of the source is the series of the labels' colours
    over the row labels of the data; the other columns are as they
    were. *)
Theorem update_clusters_writes_colors (d : DimFrame num) (w : World)
    (src : Source num) :
  _source (self w) = Some src →
  Forall (λ i, - Z.of_nat (length (_label_colors (self w))) ≤ i
               < Z.of_nat (length (_label_colors (self w))))%Z (labels_of d w) →
  length (labels_of d w) = length (df_index d) →
  ∃ colors w' src',
    update_clusters d w = Returns tt w' ∧
    Forall2 (λ i c, list_getitem (_label_colors (self w)) i = Some c)
            (labels_of d w) colors ∧
    _source (self w') = Some src' ∧
    data src' !! "color"
    = Some (ColStr {| s_index := df_index d; s_values := colors |}) ∧
    ∀ name, name ≠ "color" → data src' !! name = data src !! name.
Proof.
  intros Hs HF Hlen.
  destruct (update_clusters_after d w) as (w1 & -> & _ & _ & Hl & _ & Hs1).
  assert (Hm : is_Some (mapM (list_getitem (_label_colors (self w))) (labels_of d w))).
  { apply mapM_is_Some. eapply Forall_impl; [exact HF|].
    intros i Hi. by apply list_getitem_is_Some. }
  destruct Hm as [colors Hm].
  pose proof (proj1 (mapM_Some _ _ _) Hm) as H2.
  exists colors. eexists. exists (data_setitem "color"
    (ColStr {| s_index := df_index d; s_values := colors |}) src).
  split; [|split; [exact H2|split; [|split]]].
  - unfold assign_colors, bind, gets, list_comprehension_getitem.
    rewrite Hl, Hm. unfold ret at 1. rewrite Hs1, Hs.
    unfold pd_Series. rewrite decide_True; [reflexivity|].
    rewrite <- Hlen. symmetry. by eapply Forall2_length.
  - reflexivity.
  - simpl. by rewrite lookup_insert_eq.
  - intros name Hn. simpl. by rewrite lookup_insert_ne.
Qed.

(** X6: without a source, [update_clusters] returns exactly when every
    label indexes the palette (from the front or, negative, from the
    back), and raises [IndexError] otherwise; there is still no source
    afterwards. *)
Theorem update_clusters_without_source (d : DimFrame num) (w : World) :
  _source (self w) = None →
  ((∃ w', update_clusters d w = Returns tt w') ↔
   Forall (λ i, - Z.of_nat (length (_label_colors (self w))) ≤ i
                < Z.of_nat (length (_label_colors (self w))))%Z (labels_of d w)) ∧
  (∀ e w', update_clusters d w = Raises e w' → e = IndexError) ∧
  _source (self (after (update_clusters d w) w)) = None.
Proof.
  intros Hs.
  destruct (update_clusters_after d w) as (w1 & Hu & Ha & _ & Hl & _ & Hs1).
  rewrite Ha, Hu. clear Hu Ha.
  unfold assign_colors, bind, gets. rewrite Hl.
  unfold list_comprehension_getitem.
  destruct (mapM _ (labels_of d w)) as [colors|] eqn:Hm;
    unfold ret, raise; rewrite ?Hs1, ?Hs; simpl.
  - split; [|split; [discriminate|by rewrite Hs1]].
    split; [intros _|eauto].
    assert (H : is_Some (mapM (list_getitem (_label_colors (self w)))
                           (labels_of d w))) by (rewrite Hm; eauto).
    apply mapM_is_Some in H. eapply Forall_impl; [exact H|].
    intros i Hi. by apply list_getitem_is_Some.
  - split; [|split; [by intros e w' [= <- _]|by rewrite Hs1]].
    split; [by intros [w' [=]]|].
    intros HF. exfalso.
    assert (H : is_Some (mapM (list_getitem (_label_colors (self w)))
                           (labels_of d w))).
    { apply mapM_is_Some. eapply Forall_impl; [exact HF|].
      intros i Hi. by apply list_getitem_is_Some. }
    rewrite Hm in H. by destruct H.
Qed.

End Facts.

Lemma number_of_clusters_stays_valid_witness :
  (3 ≤ _n_clusters
         (self (perform_all clustering_dict
                  [UpdateNumberOfClusters 2; UpdateClusters samples;
                   UpdateNumberOfClusters 6; UpdateNumberOfClusters 0;
                   GetClasses]
                  cluster_start)))%Z.
Proof.
  apply number_of_clusters_stays_valid. vm_compute. discriminate.
Defined.

Lemma update_clusters_miss_calls_once_witness :
  executed (after (update_clusters clustering_dict eight_samples cluster_once)
                  cluster_once)
  = executed cluster_once
 ∧ executed (after (update_clusters clustering_dict samples cluster_start)
                   cluster_start)
  = [("dummy", samples, 4%Z)].
Proof.
  split; [vm_compute; reflexivity|].
  apply (update_clusters_miss_calls_once clustering_dict samples cluster_start).
  vm_compute. reflexivity.
Defined.

Lemma update_clusters_writes_colors_witness :
  ∃ w' src',
    update_clusters clustering_dict samples cluster_start = Returns tt w' ∧
    _source (self w') = Some src' ∧
    data src' !! "color"
    = Some (ColStr {| s_index := ["p0"; "p1"; "p2"; "p3"];
                      s_values := ["red"; "navy"; "green"; "orange"] |}).
Proof.
  destruct (update_clusters_writes_colors clustering_dict samples cluster_start
              {| data := ∅ |})
    as (colors & w' & src' & Hrun & Hc & Hs & Hd & _).
  - reflexivity.
  - apply (bool_decide_unpack _). vm_compute. exact I.
  - reflexivity.
  - exists w', src'. split; [exact Hrun|]. split; [exact Hs|].
    rewrite Hd. apply mapM_Some in Hc. vm_compute in Hc.
    injection Hc as <-. reflexivity.
Defined.

Lemma update_clusters_without_source_witness :
  ∃ w', update_clusters clustering_dict samples
          (init "dummy" None None None 4) = Returns tt w'.
Proof.
  apply (proj1 (update_clusters_without_source clustering_dict samples
                  (init "dummy" None None None 4) eq_refl)).
  apply (bool_decide_unpack _). vm_compute. exact I.
Defined.

End ClusterControllerMore.

(** ** MapperController: visibility, copies and repeated mappings *)

Module MapperControllerMore.
Import MapperController MapperControllerSpec Session.

Section Facts.
Context {num : Type}.
Variable algorithm_dict : string → DimFrame num → XYFrame num → XYFrame num.

Abbreviation World := (World num).
Abbreviation execute_mapping := (execute_mapping algorithm_dict).
Abbreviation compute_mapping := (compute_mapping algorithm_dict).
Abbreviation execute_active_algorithm := (execute_active_algorithm algorithm_dict).

(** X7: [update_axis_status] accepts any id, known to the tables or not,
    and returns; afterwards [is_axis_visible] of that id is the flag that
    was passed, and the answer for every other id is what it was. *)
Theorem is_axis_visible_after_update_axis_status (a b : label) (visible : bool)
    (w : World) :
  ∃ w', update_axis_status a visible w = Returns tt w' ∧
        is_axis_visible a w' = Returns visible w' ∧
        (b ≠ a → ∃ vb, is_axis_visible b w = Returns vb w ∧
                       is_axis_visible b w' = Returns vb w').
Proof.
  exists (after (update_axis_status a visible w) w).
  split; [by destruct visible|].
  unfold is_axis_visible, attr, bind, gets, ret.
  destruct visible; simpl; (split; [|intros Hb; eexists; split; [done|]]).
  - rewrite bool_decide_eq_false_2; [done|].
    rewrite elem_of_difference, elem_of_singleton. by intros [_ ?].
  - do 2 f_equal. apply bool_decide_ext.
    rewrite elem_of_difference, elem_of_singleton.
    split; [by intros []|by intros ?; split].
  - rewrite bool_decide_eq_true_2; [done|].
    apply elem_of_union_r, elem_of_singleton. done.
  - do 2 f_equal. apply bool_decide_ext.
    rewrite elem_of_union, elem_of_singleton. split; [by intros [|]|by left].
Qed.

(** X8: hiding an axis that is hidden already, or showing one that is
    not hidden, leaves the whole state as it was: showing discards from
    the set and does not fail on a missing id. *)
Theorem update_axis_status_again (a : label) (visible : bool) (w : World) :
  (visible = true ↔ a ∉ _ignored_axis_ids (self w)) →
  update_axis_status a visible w = Returns tt w.
Proof.
  intros H. destruct w as [[aid dv vec sp an last ig] tb fr so ex ani].
  simpl in H. destruct visible; unfold update_axis_status, modify; simpl.
  - assert (Ha : a ∉ ig) by (by apply H).
    assert (ig ∖ {[a]} = ig) as ->; [|done].
    apply set_eq. intros b. rewrite elem_of_difference, elem_of_singleton.
    split; [by intros []|]. intros Hb. split; [done|]. by intros ->.
  - assert (Ha : a ∈ ig).
    { destruct (decide (a ∈ ig)) as [|Hn]; [done|]. by apply H in Hn. }
    assert (ig ∪ {[a]} = ig) as ->; [|done].
    apply set_eq. intros b. rewrite elem_of_union, elem_of_singleton.
    split; [by intros [?| ->]|by left].
Qed.

Lemma list_comprehension_pure {St A B} (f : A → M St B) (g : A → B)
    (l : list A) (s : St) :
  (∀ a, f a s = Returns (g a) s) →
  list_comprehension f l s = Returns (g <$> l) s.
Proof.
  intros H. induction l as [|a l IH]; [done|].
  cbn [list_comprehension]. unfold bind. rewrite H, IH. done.
Qed.

Lemma axis_status_run (ig : gset label) (index : list label) (w : World) :
  _ignored_axis_ids (self w) = ig →
  list_comprehension
    (λ axis_id, visible ⇐ is_axis_visible axis_id ;; ret (axis_id, visible))
    index w
  = Returns ((λ a, (a, negb (bool_decide (a ∈ ig)))) <$> index) w.
Proof.
  intros <-. by apply list_comprehension_pure.
Qed.

Lemma keep_index {A} (ig : gset label) (l : list (label * A)) :
  (keep ig l).*1 = filter (λ a, a ∉ ig) l.*1.
Proof.
  unfold keep. induction l as [|e l IH]; [done|].
  rewrite fmap_cons, !filter_cons. cbv beta.
  destruct (decide (e.1 ∉ ig)); [|exact IH].
  rewrite fmap_cons. by f_equal.
Qed.

Lemma visible_labels (ig : gset label) (l : list label) :
  (filter (λ p, p.2 = true) ((λ a, (a, negb (bool_decide (a ∈ ig)))) <$> l)).*1
  = filter (λ a, a ∉ ig) l.
Proof.
  induction l as [|a l IH]; [done|].
  rewrite fmap_cons, !filter_cons. cbv beta. cbn [fst snd].
  destruct (decide (a ∉ ig)) as [Hn|Hn].
  - rewrite (bool_decide_eq_false_2 _ Hn). simpl. by f_equal.
  - rewrite (bool_decide_eq_true_2 (a ∈ ig)) by (by apply dec_stable).
    simpl. exact IH.
Qed.

(** X9: [get_axis_status] lists the row labels of the stored vectors, in
    their order, each with its visibility, and changes nothing; when
    [get_vectors] returns, the rows of its copy are the axes that list
    flags visible. *)
Theorem get_axis_status_spec (w : World) (fv : XYFrame num) :
  frames w !! _vectors_df (self w) = Some fv →
  ∃ status,
    get_axis_status w = Returns status w ∧
    status.*1 = xy_index fv ∧
    Forall (λ p, p.2 = true ↔ p.1 ∉ _ignored_axis_ids (self w)) status ∧
    ∀ r w' f', get_vectors w = Returns r w' → frames w' !! r = Some f' →
               xy_index f' = (filter (λ p, p.2 = true) status).*1.
Proof.
  clear algorithm_dict.
  intros Hv. eexists. split; [|split; [|split]].
  - unfold get_axis_status, attr, bind, gets, read_frame. rewrite Hv.
    by apply axis_status_run.
  - rewrite <- list_fmap_compose. apply list_fmap_id.
  - apply Forall_fmap, Forall_true. intros a. simpl.
    case_bool_decide; simpl; naive_solver.
  - intros r w' f' Hg Hf.
    destruct (get_vectors_Returns _ _ _ _ Hg Hf) as (fv0 & Hv0 & Hfil).
    rewrite Hv in Hv0. injection Hv0 as <-.
    assert (xy_index f' = filter (λ a, a ∉ _ignored_axis_ids (self w)) (xy_index fv))
      as ->.
    { unfold filtered_vectors, xy_drop_rows in Hfil.
      case_bool_decide as Hig.
      - destruct (labels_on_axis _ _); [|discriminate].
        injection Hfil as <-. apply keep_index.
      - injection Hfil as <-. rewrite Hig.
        unfold xy_index. by rewrite <- keep_index, keep_empty. }
    symmetry. apply visible_labels.
Qed.


Lemma execute_active_algorithm_outcome (rd rv : nat) (w : World) :
  match execute_active_algorithm rd rv w with
  | Returns r w' =>
      self w' = self w ∧ tables w' = tables w ∧ sources w' = sources w ∧
      animated w' = animated w ∧ frames w !! r = None ∧
      (∃ f, frames w' = <[r := f]> (frames w)) ∧
      (∃ call, executed w' = executed w ++ [call])
  | Raises _ _ => False
  | Stuck => True
  end.
Proof.
  unfold MapperController.execute_active_algorithm, attr, bind, gets,
    read_table, read_frame. simpl.
  destruct (tables w !! rd); [|done].
  destruct (frames w !! rv); [|done]. simpl.
  split_and!; try done; [|eauto..].
  apply not_elem_of_dom, is_fresh.
Qed.

Lemma getters_raise (w w' : World) (e : exn) :
  (get_dimension_values w = Raises e w' ∨ get_vectors w = Raises e w') →
  e = KeyError.
Proof.
  intros [H|H].
  - destruct (tables w !! _dimension_values_df (self w)) as [td|] eqn:E;
      [|by rewrite (get_dimension_values_Stuck _ E) in H].
    rewrite (get_dimension_values_run _ _ E) in H. cbv zeta in H.
    destruct (filtered_dimension_values _ td); congruence.
  - destruct (frames w !! _vectors_df (self w)) as [fv|] eqn:E;
      [|by rewrite (get_vectors_Stuck _ E) in H].
    rewrite (get_vectors_run _ _ E) in H. cbv zeta in H.
    destruct (filtered_vectors _ fv); congruence.
Qed.

(** What [compute_mapping] does to the world, by outcome. *)
Lemma compute_mapping_outcome (w : World) :
  match compute_mapping w with
  | Returns r w' =>
      stored_tables_kept w w' ∧ frames w !! r = None ∧ is_Some (frames w' !! r) ∧
      ∃ call, executed w' = executed w ++ [call]
  | Raises e w' =>
      e = KeyError ∧ stored_tables_kept w w' ∧ executed w' = executed w
  | Stuck => True
  end.
Proof.
  rewrite compute_mapping_unfold.
  assert (Hx : ∀ rd rv (w0 : World),
             stored_tables_kept w w0 → executed w0 = executed w →
             match execute_active_algorithm rd rv w0 with
             | Returns r w' =>
                 stored_tables_kept w w' ∧ frames w !! r = None ∧
                 is_Some (frames w' !! r) ∧
                 ∃ call, executed w' = executed w ++ [call]
             | Raises e w' =>
                 e = KeyError ∧ stored_tables_kept w w' ∧ executed w' = executed w
             | Stuck => True
             end).
  { intros rd rv w0 Hk He.
    pose proof (execute_active_algorithm_outcome rd rv w0) as H.
    destruct (execute_active_algorithm rd rv w0) as [r w'| |]; [|done..].
    destruct H as (Hs & Ht & _ & _ & Hr & (f & Hf) & (call & Hc)).
    destruct Hk as (Kf & Kt & Kv & Kd).
    split_and!.
    - repeat split.
      + intros l g Hl. rewrite Hf. rewrite lookup_insert_ne; [by apply Kf|].
        intros <-. apply Kf in Hl. congruence.
      + intros l t Hl. rewrite Ht. by apply Kt.
      + by rewrite Hs.
      + by rewrite Hs.
    - destruct (frames w !! r) as [g|] eqn:E; [|done].
      apply Kf in E. congruence.
    - rewrite Hf, lookup_insert_eq. eauto.
    - exists call. by rewrite Hc, He. }
  case_bool_decide.
  2:{ unfold bind, ret. apply Hx; [apply stored_tables_kept_refl|done]. }
  unfold get_filtered_mapping_df, bind, ret.
  pose proof (get_dimension_values_kept w) as Kd.
  pose proof (get_dimension_values_frame w) as Fd. cbv zeta in Fd.
  destruct (get_dimension_values w) as [rd w1|e w1|] eqn:Ed; simpl in *; [| |done].
  - pose proof (get_vectors_kept w1) as Kv.
    pose proof (get_vectors_frame w1) as Fv. cbv zeta in Fv.
    destruct (get_vectors w1) as [rv w2|e w2|] eqn:Ev; simpl in *; [| |done].
    + apply Hx; [by eapply stored_tables_kept_trans|].
      destruct Fd as (_ & _ & _ & _ & <-). by destruct Fv as (_ & _ & _ & _ & ->).
    + split; [eapply getters_raise; eauto|].
      split; [by eapply stored_tables_kept_trans|].
      destruct Fd as (_ & _ & _ & _ & <-). by destruct Fv as (_ & _ & _ & _ & ->).
  - split; [eapply getters_raise; eauto|]. split; [done|].
    by destruct Fd as (_ & _ & _ & _ & ->).
Qed.

(** What [show_mapping] does to the world: it never raises, and touches
    neither the controller nor the tables nor the record of mappings. *)
Lemma show_mapping_outcome (r : nat) (w : World) :
  match show_mapping r w with
  | Returns _ w' =>
      self w' = self w ∧ frames w' = frames w ∧ tables w' = tables w ∧
      executed w' = executed w
  | Raises _ _ => False
  | Stuck => True
  end.
Proof.
  unfold show_mapping, attr, bind, gets.
  destruct (_animator (self w)) as [a|]; [done|].
  destruct (_source_points (self w)) as [sp|]; [|done].
  unfold read_frame. destruct (frames w !! r) as [f|]; [|done].
  unfold source_data_setitem, bind, read_source.
  destruct (sources w !! sp) as [src|]; [|done]. simpl.
  by rewrite lookup_insert_eq.
Qed.

(** [execute_mapping] by outcome: it raises only where [compute_mapping]
    does. *)
Lemma execute_mapping_outcome (w : World) :
  match execute_mapping w with
  | Returns r w' =>
      ∃ wc ws, compute_mapping w = Returns r wc ∧
               show_mapping r wc = Returns tt ws ∧
               w' = with_self (set_last_mapped_points_df (Some r) (self ws)) ws
  | Raises e w' => compute_mapping w = Raises e w'
  | Stuck => True
  end.
Proof.
  rewrite execute_mapping_eq. unfold bind at 1.
  destruct (compute_mapping w) as [r wc|e wc|]; [|done..].
  unfold bind. pose proof (show_mapping_outcome r wc) as Hsh.
  destruct (show_mapping r wc) as [[] ws| |] eqn:Es; [|done..].
  simpl. by exists wc, ws.
Qed.

(** X11: [execute_mapping], however it ends, changes no table that was in
    the store (its result and the filtered copies are new objects),
    and leaves the set of hidden axes, the animator, the point source and
    the active algorithm of the controller as they were. *)
Theorem execute_mapping_keeps_tables_and_settings (w : World) :
  let w' := after (execute_mapping w) w in
  stored_tables_kept w w' ∧
  _ignored_axis_ids (self w') = _ignored_axis_ids (self w) ∧
  _animator (self w') = _animator (self w) ∧
  _source_points (self w') = _source_points (self w) ∧
  _active_algorithm_id (self w') = _active_algorithm_id (self w).
Proof.
  cbv zeta.
  pose proof (execute_mapping_outcome w) as Ho.
  pose proof (compute_mapping_outcome w) as Hc.
  pose proof (compute_mapping_frame algorithm_dict w) as Hf. cbv zeta in Hf.
  destruct (execute_mapping w) as [r w'|e w'|]; simpl;
    [| |split; [apply stored_tables_kept_refl|done]].
  - destruct Ho as (wc & ws & Ec & Es & ->). rewrite Ec in Hc, Hf.
    simpl in Hf. destruct Hc as (Hk & _). destruct Hf as (Hs & _).
    pose proof (show_mapping_outcome r wc) as Hsh. rewrite Es in Hsh.
    destruct Hsh as (Hs' & Hfr & Htb & _). simpl.
    rewrite Hs', Hs. split; [|done].
    destruct Hk as (Kf & Kt & Kv & Kd). repeat split; simpl.
    + intros l f Hl. rewrite Hfr. by apply Kf.
    + intros l t Hl. rewrite Htb. by apply Kt.
  - rewrite Ho in Hc, Hf. simpl in Hf.
    destruct Hc as (_ & Hk & _). destruct Hf as (Hs & _). by rewrite Hs.
Qed.

(** X12: when [execute_mapping] raises, it is the lookup failure of a
    hidden id that is no axis, raised before anything else was done: no
    algorithm was called, no animator, no source touched, and
    [get_mapped_points] still returns the previous result. *)
Theorem execute_mapping_raises_before_mapping (w w' : World) (e : exn) :
  execute_mapping w = Raises e w' →
  e = KeyError ∧ _ignored_axis_ids (self w) ≠ ∅ ∧
  executed w' = executed w ∧ animated w' = animated w ∧
  sources w' = sources w ∧ self w' = self w ∧
  get_mapped_points w' = Returns (_last_mapped_points_df (self w)) w'.
Proof.
  intros He.
  pose proof (execute_mapping_outcome w) as Ho. rewrite He in Ho.
  pose proof (compute_mapping_outcome w) as Hc.
  pose proof (compute_mapping_frame algorithm_dict w) as Hf. cbv zeta in Hf.
  rewrite Ho in Hc, Hf. simpl in Hf.
  destruct Hc as (-> & _ & Hex). destruct Hf as (Hs & Hso & Han).
  split_and!; try done.
  - revert Ho. rewrite compute_mapping_unfold.
    case_bool_decide as Hig; [done|].
    unfold bind, ret.
    pose proof (execute_active_algorithm_outcome
                  (_dimension_values_df (self w)) (_vectors_df (self w)) w) as Hx.
    simpl. by destruct (execute_active_algorithm _ _ w).
  - unfold get_mapped_points, attr, gets. by rewrite Hs.
Qed.


(** X14: with no axis hidden no copy is made: a mapping that returns ran
    the algorithm on the contents of the two stored tables, and its
    result is the one object added to the store. *)
Theorem execute_mapping_nothing_hidden (w w' : World) (r : nat) :
  _ignored_axis_ids (self w) = ∅ →
  execute_mapping w = Returns r w' →
  ∃ td fv,
    tables w !! _dimension_values_df (self w) = Some td ∧
    frames w !! _vectors_df (self w) = Some fv ∧
    tables w' = tables w ∧
    frames w !! r = None ∧
    frames w'
    = <[r := algorithm_dict (_active_algorithm_id (self w)) td fv]> (frames w) ∧
    executed w' = executed w ++ [(_active_algorithm_id (self w), td, fv)].
Proof.
  intros Hig H.
  pose proof (execute_mapping_outcome w) as Ho. rewrite H in Ho.
  destruct Ho as (wc & ws & Ec & Es & ->).
  pose proof (show_mapping_outcome r wc) as Hsh. rewrite Es in Hsh.
  destruct Hsh as (_ & Hfr & Htb & Hex). simpl. rewrite Hfr, Htb, Hex.
  clear Es Hfr Htb Hex. revert Ec. rewrite compute_mapping_unfold.
  rewrite bool_decide_eq_false_2 by (by intros ?).
  unfold bind, ret. simpl.
  unfold MapperController.execute_active_algorithm, attr, bind, gets,
    read_table, read_frame. simpl.
  destruct (tables w !! _) as [td|]; [|discriminate].
  destruct (frames w !! _vectors_df (self w)) as [fv|]; [|discriminate]. simpl.
  intros [= <- <-]. exists td, fv. simpl. split_and!; try done.
  apply not_elem_of_dom, is_fresh.
Qed.

(** X15: replacing the dimension values keeps the hidden axes: the next
    [get_dimension_values] returns a copy of the new table without them,
    the new table itself untouched, or fails when one of them is no
    column of the new table. *)
Theorem update_dimension_values_keeps_hidden_axes (r' : nat) (t' : DimFrame num)
    (w : World) :
  tables w !! r' = Some t' →
  ∃ w1,
    update_dimension_values r' w = Returns tt w1 ∧
    _ignored_axis_ids (self w1) = _ignored_axis_ids (self w) ∧
    tables w1 = tables w ∧
    ((∀ b, b ∈ _ignored_axis_ids (self w) → b ∈ df_column_labels t') →
     ∃ r w2, get_dimension_values w1 = Returns r w2 ∧
             tables w2 !! r
             = Some {| df_index := df_index t';
                       df_columns := keep (_ignored_axis_ids (self w))
                                          (df_columns t') |} ∧
             r ≠ r' ∧ tables w2 !! r' = Some t') ∧
    (∀ b, b ∈ _ignored_axis_ids (self w) → b ∉ df_column_labels t' →
          ∃ w2, get_dimension_values w1 = Raises KeyError w2).
Proof.
  intros Ht. eexists. split; [reflexivity|]. simpl. split_and!; try done.
  - intros Hig.
    erewrite get_dimension_values_run by (simpl; exact Ht). simpl.
    rewrite (filtered_dimension_values_Some _ _ Hig).
    eexists _, _. split; [reflexivity|]. simpl. split_and!.
    + apply lookup_insert_eq.
    + by eapply fresh_insert_ne.
    + by apply fresh_insert_kept.
  - intros b Hb Hn.
    erewrite get_dimension_values_run by (simpl; exact Ht). simpl.
    unfold filtered_dimension_values, df_drop_columns.
    rewrite bool_decide_eq_true_2.
    2:{ intros E. rewrite E in Hb. by apply not_elem_of_empty in Hb. }
    unfold labels_on_axis. rewrite bool_decide_eq_false_2; [eauto|].
    intros HF. by apply Hn, HF.
Qed.

Lemma imap_labels {A} (f : nat → label * A → label * A) (l : list (label * A)) :
  (∀ i r, (f i r).1 = r.1) → (imap f l).*1 = l.*1.
Proof.
  revert f. induction l as [|r l IH]; intros f H; [done|].
  simpl. rewrite H. f_equal. apply IH. intros i r'. apply H.
Qed.

Lemma xy_loc_slice_set_index (g : label * (num * num) → label * (num * num))
    (a : label) (f f' : XYFrame num) :
  (∀ r, (g r).1 = r.1) → xy_loc_slice_set g a f = Some f' →
  xy_index f' = xy_index f.
Proof.
  intros Hg. unfold xy_loc_slice_set.
  destruct (loc_slice a (xy_index f)) as [[start stop]|]; [|discriminate].
  intros [= <-]. unfold xy_index, map_range. simpl.
  apply imap_labels. intros i r. by case_bool_decide.
Qed.

(** X16: [update_single_vector] is all or nothing: when it raises, it is
    the lookup failure of the label slice, found before the first
    assignment, and the whole state is as it was. *)
Theorem update_single_vector_raises_unchanged (axis_id : label) (x1 y1 : num)
    (w w' : World) (e : exn) :
  update_single_vector axis_id x1 y1 w = Raises e w' →
  e = KeyError ∧ w' = w ∧
  ∃ fv, frames w !! _vectors_df (self w) = Some fv ∧
        loc_slice axis_id (xy_index fv) = None.
Proof.
  unfold update_single_vector, attr, bind, gets, frame_loc_slice_set, bind,
    read_frame.
  destruct (frames w !! _vectors_df (self w)) as [fv|] eqn:Hv; [|discriminate].
  destruct (xy_loc_slice_set (set_x x1) axis_id fv) as [f1|] eqn:E1.
  - unfold write_frame, modify. simpl. rewrite lookup_insert_eq.
    pose proof (xy_loc_slice_set_index (set_x x1) _ _ _ (λ r, eq_refl) E1) as Hi.
    unfold xy_loc_slice_set at 1. rewrite Hi.
    unfold xy_loc_slice_set in E1.
    destruct (loc_slice axis_id (xy_index fv)) as [[start stop]|];
      discriminate.
  - intros [= <- <-]. split_and!; try done. exists fv. split; [done|].
    unfold xy_loc_slice_set in E1.
    by destruct (loc_slice axis_id (xy_index fv)) as [[start stop]|].
Qed.

(** X17: a copy handed out by [get_vectors] does not follow later changes
    of the stored table: after [update_single_vector] it still has the
    old end point, while the next [get_vectors] returns the new one. *)
Theorem earlier_copy_keeps_old_vector (axis_id : label) (x1 y1 x0 y0 : num)
    (w : World) (before after : list (label * (num * num))) :
  frames w !! _vectors_df (self w)
  = Some {| xy_rows := before ++ (axis_id, (x0, y0)) :: after |} →
  axis_id ∉ before.*1 → axis_id ∉ after.*1 →
  (∀ b, b ∈ _ignored_axis_ids (self w) →
        b ∈ (before ++ (axis_id, (x0, y0)) :: after).*1) →
  ∃ v1 w1 w2 v2 w3,
    get_vectors w = Returns v1 w1 ∧
    update_single_vector axis_id x1 y1 w1 = Returns tt w2 ∧
    get_vectors w2 = Returns v2 w3 ∧
    frames w3 !! v1
    = Some {| xy_rows := keep (_ignored_axis_ids (self w))
                              (before ++ (axis_id, (x0, y0)) :: after) |} ∧
    frames w3 !! v2
    = Some {| xy_rows := keep (_ignored_axis_ids (self w))
                              (before ++ (axis_id, (x1, y1)) :: after) |}.
Proof.
  intros Hv Hb Ha Hig.
  set (ig := _ignored_axis_ids (self w)) in *.
  set (old := {| xy_rows := before ++ (axis_id, (x0, y0)) :: after |}) in *.
  set (new := {| xy_rows := before ++ (axis_id, (x1, y1)) :: after |}).
  set (v1 := fresh (dom (frames w))).
  set (c1 := {| xy_rows := keep ig (xy_rows old) |}).
  set (fr1 := <[v1 := c1]> (frames w)).
  set (fr2 := <[_vectors_df (self w) := new]> fr1).
  assert (Hlv : v1 ≠ _vectors_df (self w)) by (by eapply fresh_insert_ne).
  assert (Hig' : ∀ b, b ∈ ig → b ∈ xy_index new).
  { intros b Hb'. specialize (Hig b Hb'). unfold xy_index. simpl.
    rewrite fmap_app, fmap_cons in *. done. }
  exists v1, (with_frames fr1 w), (with_frames fr2 w),
    (fresh (dom fr2)),
    (with_frames (<[fresh (dom fr2) := {| xy_rows := keep ig (xy_rows new) |}]> fr2) w).
  split_and!.
  - rewrite (get_vectors_run _ _ Hv). cbv zeta. fold ig.
    by rewrite (filtered_vectors_Some ig old Hig).
  - unfold update_single_vector, attr, bind, gets, frame_loc_slice_set, bind,
      read_frame. simpl. unfold fr1 at 1.
    rewrite (lookup_insert_ne _ _ _ _ Hlv), Hv. unfold old.
    rewrite (xy_loc_slice_set_once (set_x x1)) by done.
    unfold write_frame, modify. simpl. rewrite lookup_insert_eq.
    rewrite (xy_loc_slice_set_once (set_y y1)) by done.
    simpl. unfold with_frames. simpl. by rewrite insert_insert_eq.
  - erewrite get_vectors_run by (simpl; apply lookup_insert_eq). simpl.
    fold ig. by rewrite (filtered_vectors_Some ig new Hig').
  - simpl. rewrite lookup_insert_ne.
    + unfold fr2. rewrite lookup_insert_ne by done. apply lookup_insert_eq.
    + eapply fresh_insert_ne. unfold fr2.
      rewrite lookup_insert_ne by done. apply lookup_insert_eq.
  - simpl. apply lookup_insert_eq.
Qed.

End Facts.

Lemma update_axis_status_again_witness :
  update_axis_status "a" true mapper_start = Returns tt mapper_start ∧
  update_axis_status "b" false mapper_b_hidden = Returns tt mapper_b_hidden.
Proof.
  split; apply update_axis_status_again.
  - split; [intros _|done]. apply (bool_decide_unpack _). vm_compute. exact I.
  - split; [discriminate|]. intros Hn. exfalso. apply Hn.
    apply (bool_decide_unpack _). vm_compute. exact I.
Defined.

Lemma get_axis_status_spec_witness :
  get_axis_status mapper_b_hidden
  = Returns [("a", true); ("b", false); ("c", true)] mapper_b_hidden.
Proof.
  destruct (get_axis_status_spec mapper_b_hidden vectors)
    as (status & Hrun & _).
  - vm_compute. reflexivity.
  - rewrite Hrun. f_equal.
    assert (E : get_axis_status mapper_b_hidden
                = Returns [("a", true); ("b", false); ("c", true)] mapper_b_hidden)
      by (vm_compute; reflexivity).
    rewrite E in Hrun. by injection Hrun.
Defined.


Lemma execute_mapping_raises_before_mapping_witness :
  executed (after (execute_mapping mapping_dict mapper_zz_hidden) mapper_zz_hidden)
  = [] ∧
  get_mapped_points
    (after (execute_mapping mapping_dict mapper_zz_hidden) mapper_zz_hidden)
  = Returns None
      (after (execute_mapping mapping_dict mapper_zz_hidden) mapper_zz_hidden).
Proof.
  destruct (execute_mapping_raises_before_mapping mapping_dict mapper_zz_hidden
              (after (execute_mapping mapping_dict mapper_zz_hidden)
                     mapper_zz_hidden)
              KeyError)
    as (_ & _ & Hex & _ & _ & _ & Hlast).
  - vm_compute. reflexivity.
  - split; [exact Hex|exact Hlast].
Defined.


Lemma execute_mapping_nothing_hidden_witness :
  tables (after (execute_mapping mapping_dict mapper_start) mapper_start)
  = tables mapper_start ∧
  executed (after (execute_mapping mapping_dict mapper_start) mapper_start)
  = [("dummy", samples, vectors)].
Proof.
  destruct (execute_mapping_nothing_hidden mapping_dict mapper_start
              (after (execute_mapping mapping_dict mapper_start) mapper_start) 1)
    as (td & fv & Htd & Hfv & Ht & _ & _ & Hex).
  - reflexivity.
  - vm_compute. reflexivity.
  - split; [exact Ht|]. rewrite Hex.
    assert (td = samples) as ->.
    { assert (E : tables mapper_start !! _dimension_values_df (self mapper_start)
                  = Some samples) by (vm_compute; reflexivity).
      rewrite E in Htd. by injection Htd. }
    assert (fv = vectors) as ->.
    { assert (E : frames mapper_start !! _vectors_df (self mapper_start)
                  = Some vectors) by (vm_compute; reflexivity).
      rewrite E in Hfv. by injection Hfv. }
    reflexivity.
Defined.

Lemma update_dimension_values_keeps_hidden_axes_witness :
  (∃ w1 r w2,
     update_dimension_values 5
       (with_second_table
          (after (update_axis_status "a" false mapper_start) mapper_start))
     = Returns tt w1 ∧
     get_dimension_values w1 = Returns r w2 ∧
     tables w2 !! r
     = Some {| df_index := ["q0"; "q1"; "q2"; "q3"; "q4"; "q5"; "q6"; "q7"];
               df_columns := [] |}) ∧
  (∃ w1 w2,
     update_dimension_values 5 (with_second_table mapper_b_hidden)
     = Returns tt w1 ∧
     get_dimension_values w1 = Raises KeyError w2).
Proof.
  split.
  - destruct (update_dimension_values_keeps_hidden_axes 5 eight_samples
                (with_second_table
                   (after (update_axis_status "a" false mapper_start)
                          mapper_start)))
      as (w1 & Hu & _ & _ & Hret & _); [vm_compute; reflexivity|].
    destruct Hret as (r & w2 & Hg & Hr & _).
    + intros b Hb. apply (bool_decide_unpack _).
      assert (b = "a") as ->; [|vm_compute; exact I].
      revert Hb. simpl. rewrite elem_of_union, elem_of_singleton.
      by intros [?%not_elem_of_empty|].
    + exists w1, r, w2. split; [exact Hu|]. split; [exact Hg|].
      rewrite Hr. vm_compute. reflexivity.
  - destruct (update_dimension_values_keeps_hidden_axes 5 eight_samples
                (with_second_table mapper_b_hidden))
      as (w1 & Hu & _ & _ & _ & Hraise); [vm_compute; reflexivity|].
    destruct (Hraise "b") as (w2 & Hg).
    + apply (bool_decide_unpack _). vm_compute. exact I.
    + intros Hin. revert Hin. apply (bool_decide_unpack _). vm_compute. exact I.
    + by exists w1, w2.
Defined.

Lemma update_single_vector_raises_unchanged_witness :
  update_single_vector "zz" 1%Z 1%Z mapper_unsorted
  = Raises KeyError mapper_unsorted.
Proof.
  assert (E : ∃ e w', update_single_vector "zz" 1%Z 1%Z mapper_unsorted
                      = Raises e w').
  { eexists _, _. vm_compute. reflexivity. }
  destruct E as (e & w' & E).
  destruct (update_single_vector_raises_unchanged _ _ _ _ _ _ E)
    as (-> & -> & _).
  exact E.
Defined.

Lemma earlier_copy_keeps_old_vector_witness :
  ∃ v1 w1 w2 v2 w3,
    get_vectors mapper_b_hidden = Returns v1 w1 ∧
    update_single_vector "a" 9%Z 9%Z w1 = Returns tt w2 ∧
    get_vectors w2 = Returns v2 w3 ∧
    frames w3 !! v1
    = Some {| xy_rows := [("a", (4, 0)%Z); ("c", (-3, -3)%Z)] |} ∧
    frames w3 !! v2
    = Some {| xy_rows := [("a", (9, 9)%Z); ("c", (-3, -3)%Z)] |}.
Proof.
  destruct (earlier_copy_keeps_old_vector "a" 9%Z 9%Z 4%Z 0%Z mapper_b_hidden
              [] [("b", (0, 4)%Z); ("c", (-3, -3)%Z)])
    as (v1 & w1 & w2 & v2 & w3 & H1 & H2 & H3 & H4 & H5).
  - vm_compute. reflexivity.
  - apply (bool_decide_unpack _). vm_compute. exact I.
  - apply (bool_decide_unpack _). vm_compute. exact I.
  - intros b Hb. apply (bool_decide_unpack _).
    assert (b = "b") as ->; [|vm_compute; exact I].
    revert Hb. simpl. rewrite elem_of_union, elem_of_singleton.
    by intros [?%not_elem_of_empty|].
  - by exists v1, w1, w2, v2, w3.
Defined.

End MapperControllerMore.

(** ** AxisGenerator: the circle for any centre *)

Module AxisGeneratorMore.
Import AxisGenerator AxisGeneratorSpec.

Lemma radii_generator (k : nat) (g : Random) :
  (radii k g).2 = {| draws := draws g; cursor := cursor g + k |}.
Proof.
  revert g. induction k as [|k IH]; intros g; cbn [radii].
  - destruct g as [d c]. simpl. by rewrite Nat.add_0_r.
  - unfold randint. specialize (IH {| draws := draws g; cursor := S (cursor g) |}).
    destruct (radii k _) as [rs g2]. simpl in *. rewrite IH. simpl.
    f_equal. lia.
Qed.

Section Floats.
Variable float : Type.
Variable of_int : Z → float.
Variables fadd fmul fdiv : float → float → float.
Variables radians cos sin fabs : float → float.
Variable flt : float → float → bool.

Abbreviation segment_of :=
  (segment_of float of_int fadd fmul fdiv radians cos sin fabs flt).
Abbreviation subdivide_loop :=
  (subdivide_loop float of_int fadd fmul fdiv radians cos sin fabs flt).
Abbreviation _subdivide_circle :=
  (_subdivide_circle float of_int fadd fmul fdiv radians cos sin fabs flt).
Abbreviation degrees := (degrees float of_int fmul fdiv).
Abbreviation to_float := (to_float float of_int).

Lemma subdivide_loop_run (centre : number float * number float) (n_lines : nat)
    (range : list nat) (segment_list : list (list (number float))) (g : Random) :
  subdivide_loop centre n_lines range segment_list g
  = (segment_list
       ++ zip_with (segment_of centre n_lines) range (radii (length range) g).1,
     (radii (length range) g).2).
Proof.
  revert segment_list g.
  induction range as [|i range IH]; intros segment_list g;
    cbn [AxisGenerator.subdivide_loop radii length].
  - by rewrite app_nil_r.
  - unfold segment_at. destruct centre as [x0 y0].
    destruct (randint 1 9 g) as [r g1]. rewrite IH.
    destruct (radii (length range) g1) as [rs g2]. simpl.
    by rewrite <- app_assoc.
Qed.

(** X18: [_subdivide_circle] returns [n_lines] segments, segment [i]
    starting at the centre it was given and ending at [i * (360/n_lines)]
    degrees and a distance in [1 .. 9] from it, and takes exactly
    [n_lines] draws from the random generator; for [n_lines = 0] that is
    no segment and no draw. *)
Theorem subdivide_circle_spec (centre : number float * number float)
    (n_lines : nat) (g : Random) :
  ∃ rs : list Z,
    length rs = n_lines ∧
    Forall (λ r, 1 ≤ r ≤ 9)%Z rs ∧
    _subdivide_circle centre n_lines g
    = (zip_with (segment_of centre n_lines) (seq 0 n_lines) rs,
       {| draws := draws g; cursor := cursor g + n_lines |}) ∧
    length (_subdivide_circle centre n_lines g).1 = n_lines.
Proof.
  destruct (radii_range n_lines g) as [Hl HF].
  exists (radii n_lines g).1. split; [done|]. split; [done|].
  unfold AxisGenerator._subdivide_circle. rewrite subdivide_loop_run.
  rewrite length_seq, radii_generator. simpl. split; [done|].
  rewrite length_zip_with, length_seq, Hl. lia.
Qed.

(** Where [abs(v) < 0.0] never holds, the end point of a segment is
    computed from the cosine and the sine as they are. *)
Lemma zero_test_never_fires (centre : number float * number float)
    (n_lines i : nat) (r : Z) :
  (∀ v, flt (fabs v) (of_int 0) = false) →
  segment_of centre n_lines i r
  = [centre.1;
     Float (fadd (to_float centre.1)
              (fmul (of_int r) (cos (radians (degrees i n_lines)))));
     centre.2;
     Float (fadd (to_float centre.2)
              (fmul (of_int r) (sin (radians (degrees i n_lines)))))].
Proof.
  intros H. unfold AxisGenerator.segment_of, snap. rewrite !H.
  destruct centre as [[x0|x0] [y0|y0]]; reflexivity.
Qed.

End Floats.

(** [abs(v) < 0.0] holds for no binary64 float: not for a zero of either
    sign, an infinity, NaN or a finite number. *)
Lemma abs_not_below_zero (v : Binary64.float) :
  Binary64.flt (Binary64.fabs v) (Binary64.of_int 0) = false.
Proof. by destruct v as [s|s| |s m e]. Qed.

(** X19: on binary64 floats the test [abs(v) < 0.00000000], meant to turn
    a cosine or sine that is almost 0 into 0, holds for no value, NaN
    and the infinities included, so it never fires: whatever [radians],
    [cos] and [sin] compute, the end point of every segment is a float
    computed from the cosine and the sine as they are. *)
Theorem zero_test_never_fires_binary64
    (radians cos sin : Binary64.float → Binary64.float)
    (centre : number Binary64.float * number Binary64.float)
    (n_lines i : nat) (r : Z) :
  let angle :=
    radians (AxisGenerator.degrees Binary64.float Binary64.of_int
               Binary64.fmul Binary64.fdiv i n_lines) in
  (∀ v, snap Binary64.float Binary64.of_int Binary64.fabs Binary64.flt v
        = Float v) ∧
  AxisGenerator.segment_of Binary64.float Binary64.of_int Binary64.fadd
    Binary64.fmul Binary64.fdiv radians cos sin Binary64.fabs Binary64.flt
    centre n_lines i r
  = [centre.1;
     Float (Binary64.fadd
              (AxisGenerator.to_float Binary64.float Binary64.of_int centre.1)
              (Binary64.fmul (Binary64.of_int r) (cos angle)));
     centre.2;
     Float (Binary64.fadd
              (AxisGenerator.to_float Binary64.float Binary64.of_int centre.2)
              (Binary64.fmul (Binary64.of_int r) (sin angle)))].
Proof.
  cbv zeta. split.
  - intros v. unfold snap. by rewrite abs_not_below_zero.
  - apply zero_test_never_fires. apply abs_not_below_zero.
Qed.

End AxisGeneratorMore.

(** ** MapperController: construction, animator and the filtered pair *)

Module MapperControllerSetup.
Import MapperController MapperControllerSpec MapperControllerMore Session.

Section Facts.
Context {num : Type}.
Variable algorithm_dict : string → DimFrame num → XYFrame num → XYFrame num.

Abbreviation World := (World num).
Abbreviation execute_mapping := (execute_mapping algorithm_dict).
Abbreviation compute_mapping := (compute_mapping algorithm_dict).

(** X20: [update_animator] takes effect at the next mapping: with an
    animator given, a mapping that returns hands it the previous and the
    new points and writes no source; with [None] given, no animator is
    called any more. *)
Theorem update_animator_then_mapping (animator : option nat) (w w' : World)
    (r : nat) :
  execute_mapping (after (update_animator animator w) w) = Returns r w' →
  update_animator animator w = Returns tt (after (update_animator animator w) w) ∧
  match animator with
  | Some a =>
      animated w' = animated w ++ [(a, _last_mapped_points_df (self w), r)] ∧
      sources w' = sources w
  | None => animated w' = animated w
  end.
Proof.
  intros H. split; [done|].
  set (w1 := after (update_animator animator w) w) in *.
  pose proof (execute_mapping_outcome algorithm_dict w1) as Ho. rewrite H in Ho.
  destruct Ho as (wc & ws & Ec & Es & ->).
  pose proof (compute_mapping_frame algorithm_dict w1) as Hf. cbv zeta in Hf.
  rewrite Ec in Hf. simpl in Hf. destruct Hf as (Hs & Hso & Han).
  destruct animator as [a|].
  - rewrite (show_mapping_animator r a) in Es by (by rewrite Hs).
    injection Es as <-. simpl. by rewrite Han, Hs, Hso.
  - simpl. rewrite <- Han.
    destruct (_source_points (self wc)) as [sp|] eqn:Esp.
    + destruct (show_mapping_source_Returns r sp wc ws) as (f & src & Hf & Hsrc);
        [by rewrite Hs|done|done|].
      rewrite (show_mapping_source r sp wc f src) in Es
        by (done || by rewrite Hs).
      by injection Es as <-.
    + rewrite show_mapping_nothing in Es by (done || by rewrite Hs).
      by injection Es as <-.
Qed.

(** X21: [get_filtered_mapping_df] returns two new objects, a copy of the
    dimension values and a copy of the vectors, each with the contents
    the getter of its own returns from the same state. *)
Theorem get_filtered_mapping_df_spec (w w' : World) (rd rv : nat) :
  get_filtered_mapping_df w = Returns (rd, rv) w' →
  ∃ w1 w2 td' fv',
    get_dimension_values w = Returns rd w1 ∧ tables w1 !! rd = Some td' ∧
    get_vectors w = Returns rv w2 ∧ frames w2 !! rv = Some fv' ∧
    tables w' !! rd = Some td' ∧ frames w' !! rv = Some fv' ∧
    rd ≠ _dimension_values_df (self w) ∧ rv ≠ _vectors_df (self w).
Proof.
  unfold get_filtered_mapping_df, bind, ret.
  destruct (tables w !! _dimension_values_df (self w)) as [td|] eqn:Hd;
    [|by rewrite (get_dimension_values_Stuck _ Hd)].
  rewrite (get_dimension_values_run _ _ Hd). cbv zeta.
  destruct (filtered_dimension_values _ td) as [td'|]; [|discriminate].
  destruct (frames w !! _vectors_df (self w)) as [fv|] eqn:Hv.
  2:{ rewrite get_vectors_Stuck by done. discriminate. }
  erewrite get_vectors_run by (simpl; exact Hv). simpl.
  rewrite (get_vectors_run _ _ Hv). cbv zeta.
  destruct (filtered_vectors _ fv) as [fv'|]; [|discriminate].
  intros [= <- <- <-]. eexists _, _, td', fv'. simpl.
  split_and!; try done; try apply lookup_insert_eq; by eapply fresh_insert_ne.
Qed.

(** X22: a controller just built hides no axis and has no result yet:
    every id is visible, [get_mapped_points] returns [None], and
    [get_vectors] returns a copy of the whole vectors table. *)
Theorem fresh_controller (DUMMY_COORDINATES_ID : string)
    (dimension_values_df vectors_df : nat) (source_points : option nat)
    (mapping_id : option string) (animator : option nat) (w : World)
    (fv : XYFrame num) :
  self w = init DUMMY_COORDINATES_ID dimension_values_df vectors_df
             source_points mapping_id animator →
  frames w !! vectors_df = Some fv →
  (∀ a, is_axis_visible a w = Returns true w) ∧
  get_mapped_points w = Returns None w ∧
  ∃ r w', get_vectors w = Returns r w' ∧ r ≠ vectors_df ∧
          frames w' !! r = Some fv ∧ frames w' !! vectors_df = Some fv.
Proof.
  intros Hs Hv.
  assert (Hlv : _vectors_df (self w) = vectors_df) by (by rewrite Hs).
  assert (Hig : _ignored_axis_ids (self w) = ∅) by (by rewrite Hs).
  split; [|split].
  - intros a. unfold is_axis_visible, attr, bind, gets, ret. rewrite Hig.
    by rewrite bool_decide_eq_false_2 by apply not_elem_of_empty.
  - unfold get_mapped_points, attr, gets. by rewrite Hs.
  - rewrite <- Hlv in Hv. rewrite (get_vectors_run _ _ Hv). cbv zeta.
    unfold filtered_vectors. rewrite Hig.
    rewrite bool_decide_eq_false_2 by (by intros ?).
    eexists _, _. split; [reflexivity|]. simpl. rewrite <- Hlv. split_and!.
    + by eapply fresh_insert_ne.
    + apply lookup_insert_eq.
    + by apply fresh_insert_kept.
Qed.

End Facts.

Lemma update_animator_then_mapping_witness :
  animated
    (after (execute_mapping mapping_dict
              (after (update_animator (Some 3) mapper_start) mapper_start))
           mapper_start)
  = [(3, None, 1)].
Proof.
  apply (update_animator_then_mapping mapping_dict (Some 3) mapper_start _ 1).
  vm_compute. reflexivity.
Defined.

Lemma get_filtered_mapping_df_spec_witness :
  ∃ w' td' fv',
    get_filtered_mapping_df mapper_b_hidden = Returns (1, 1) w' ∧
    tables w' !! 1 = Some td' ∧ frames w' !! 1 = Some fv'.
Proof.
  destruct (get_filtered_mapping_df_spec mapper_b_hidden
              (after (get_filtered_mapping_df mapper_b_hidden) mapper_b_hidden)
              1 1)
    as (w1 & w2 & td' & fv' & _ & _ & _ & _ & Ht & Hf & _).
  - vm_compute. reflexivity.
  - eexists _, td', fv'. split; [|split; [exact Ht|exact Hf]].
    vm_compute. reflexivity.
Defined.

Lemma fresh_controller_witness :
  is_axis_visible "zz" mapper_start = Returns true mapper_start ∧
  get_mapped_points mapper_start = Returns None mapper_start.
Proof.
  destruct (fresh_controller "dummy" 0 0 (Some 0) None None mapper_start vectors)
    as (Hvis & Hlast & _).
  - reflexivity.
  - vm_compute. reflexivity.
  - split; [apply Hvis|exact Hlast].
Defined.

End MapperControllerSetup.
